(** * A Python REPL tool server: the session engine of [python-repl/server.py]

    The development embeds [PythonREPLServer.handle_call_tool] as a pure
    function over an explicit server state (the session namespace) and an
    explicit process state (the [sys.stdout]/[sys.stderr] slots, the text
    written to every stream, the external commands spawned so far).

    The Python interpreter behind [exec] and [eval], the operating system
    behind [subprocess.run] and the two library renderers [traceback.format_exc]
    and the [pandas] table display are not code of the repository: they are the
    fields of the class [Runtime].  Every theorem of the generic part holds for
    every runtime; [MiniPy] is one concrete runtime (a small fragment of Python
    with its lexer, parser and evaluator) on which the handler can be run. *)

From Stdlib Require Import List String Ascii ZArith Bool DecimalString.
Import ListNotations.
Open Scope list_scope.
Open Scope string_scope.

Set Warnings "-register-all".

(** ** Text: the [str] methods the handler calls

    A [str] is modelled as the sequence of its code points, restricted to the
    code points below 256 (one [ascii] each). *)

Definition LF : ascii := "010"%char.
Definition TAB : ascii := "009"%char.
Definition CR : ascii := "013"%char.
Definition DQUOTE : ascii := "034"%char.
Definition SQUOTE : ascii := "039"%char.
Definition BACKSLASH : ascii := "092"%char.

Definition str1 (c : ascii) : string := String c EmptyString.

(** [str.isspace] on one code point below 256: the characters [str.strip()]
    removes when it is called without argument. *)
Definition py_isspace (c : ascii) : bool :=
  let n := nat_of_ascii c in
  (((9 <=? n) && (n <=? 13)) || ((28 <=? n) && (n <=? 32))
   || (n =? 133) || (n =? 160))%nat.

Fixpoint lstrip (s : string) : string :=
  match s with
  | EmptyString => EmptyString
  | String c rest => if py_isspace c then lstrip rest else s
  end.

Fixpoint string_rev_onto (s acc : string) : string :=
  match s with
  | EmptyString => acc
  | String c rest => string_rev_onto rest (String c acc)
  end.

Definition string_rev (s : string) : string := string_rev_onto s EmptyString.

Definition rstrip (s : string) : string := string_rev (lstrip (string_rev s)).

(** [s.strip()] *)
Definition strip (s : string) : string := rstrip (lstrip s).

(** [s.split(sep)] for a one-character separator: never the empty list. *)
Fixpoint split (sep : ascii) (s : string) : list string :=
  match s with
  | EmptyString => [EmptyString]
  | String c rest =>
      if Ascii.eqb c sep then EmptyString :: split sep rest
      else match split sep rest with
           | piece :: pieces => String c piece :: pieces
           | [] => [str1 c]
           end
  end.

(** [code.strip().split('\n')[-1]] *)
Definition last_line (code : string) : string :=
  last (split LF (strip code)) EmptyString.

Fixpoint join (sep : string) (parts : list string) : string :=
  match parts with
  | [] => EmptyString
  | [s] => s
  | s :: rest => s ++ sep ++ join sep rest
  end.

(** [s.startswith(c)] for a one-character prefix. *)
Definition startswith (c : ascii) (s : string) : bool :=
  match s with
  | String c' _ => Ascii.eqb c c'
  | EmptyString => false
  end.

Definition hex_digit (n : nat) : ascii :=
  nth n (list_ascii_of_string "0123456789abcdef") "0"%char.

(** The two lower-case hexadecimal digits of a code point below 256. *)
Definition hex2 (c : ascii) : string :=
  let n := nat_of_ascii c in
  String (hex_digit (n / 16)) (str1 (hex_digit (n mod 16))).

(** [str(z)] of an [int]. *)
Definition str_of_int (z : Z) : string := NilZero.string_of_int (Z.to_int z).

(** ** Exceptions *)

(** An exception object: its class, the classes it inherits from, [str(e)],
    and what an f-string shows of its attribute [stderr] (the exceptions of
    [subprocess] have one). *)
Record pyexc := mk_pyexc {
  exc_class : string;
  exc_bases : list string;
  exc_str : string;
  exc_stderr : string
}.

(** An exception that carries no error output. *)
Definition mk_exc (cls : string) (bases : list string) (msg : string) : pyexc :=
  mk_pyexc cls bases msg "None".

(** [isinstance(e, cls)] *)
Definition exc_isinstance (e : pyexc) (cls : string) : bool :=
  existsb (String.eqb cls) (exc_class e :: exc_bases e).

Definition std_bases : list string := ["Exception"; "BaseException"].

Definition ValueError (msg : string) : pyexc := mk_exc "ValueError" std_bases msg.
Definition TypeError (msg : string) : pyexc := mk_exc "TypeError" std_bases msg.
Definition SyntaxError (msg : string) : pyexc := mk_exc "SyntaxError" std_bases msg.
Definition NameError (name : string) : pyexc :=
  mk_exc "NameError" std_bases
    ("name " ++ str1 SQUOTE ++ name ++ str1 SQUOTE ++ " is not defined").
Definition ZeroDivisionError (msg : string) : pyexc :=
  mk_exc "ZeroDivisionError" ("ArithmeticError" :: std_bases) msg.

(** ** Runtime values

    The closed variant of runtime values the result classifier dispatches on.
    Floating-point numbers are outside the model.  A table has string column
    labels and rows of cells; [VObject] is any other object, carried with its
    type name and with what [repr] does on it (user classes may raise). *)
Inductive pyval : Type :=
| VNone
| VBool (b : bool)
| VInt (z : Z)
| VStr (s : string)
| VList (items : list pyval)
| VTuple (items : list pyval)
| VDict (entries : list (pyval * pyval))
| VDataFrame (columns : list string) (rows : list (list pyval))
| VObject (type_name : string) (obj_repr : pyexc + string).

(** Induction on a value has to go through the lists nested in it. *)
Section PyvalInduction.

Variable P : pyval -> Prop.
Hypothesis P_none : P VNone.
Hypothesis P_bool : forall b, P (VBool b).
Hypothesis P_int : forall z, P (VInt z).
Hypothesis P_str : forall s, P (VStr s).
Hypothesis P_list : forall l, Forall P l -> P (VList l).
Hypothesis P_tuple : forall l, Forall P l -> P (VTuple l).
Hypothesis P_dict :
  forall d, Forall (fun kv => P (fst kv) /\ P (snd kv)) d -> P (VDict d).
Hypothesis P_frame : forall c rows, P (VDataFrame c rows).
Hypothesis P_object : forall t r, P (VObject t r).

(** Induction on a value, through the lists nested in it. *)
Fixpoint pyval_nested_ind (v : pyval) : P v :=
  match v with
  | VNone => P_none
  | VBool b => P_bool b
  | VInt z => P_int z
  | VStr s => P_str s
  | VList l =>
      P_list l
        ((fix all (l : list pyval) : Forall P l :=
            match l with
            | [] => Forall_nil P
            | x :: rest => Forall_cons x (pyval_nested_ind x) (all rest)
            end) l)
  | VTuple l =>
      P_tuple l
        ((fix all (l : list pyval) : Forall P l :=
            match l with
            | [] => Forall_nil P
            | x :: rest => Forall_cons x (pyval_nested_ind x) (all rest)
            end) l)
  | VDict d =>
      P_dict d
        ((fix all (d : list (pyval * pyval))
            : Forall (fun kv => P (fst kv) /\ P (snd kv)) d :=
            match d with
            | [] => Forall_nil _
            | (k, x) :: rest =>
                Forall_cons (k, x)
                  (conj (pyval_nested_ind k) (pyval_nested_ind x)) (all rest)
            end) d)
  | VDataFrame c rows => P_frame c rows
  | VObject t r => P_object t r
  end.

End PyvalInduction.

(** [type(v).__name__] *)
Definition type_name_of (v : pyval) : string :=
  match v with
  | VNone => "NoneType"
  | VBool _ => "bool"
  | VInt _ => "int"
  | VStr _ => "str"
  | VList _ => "list"
  | VTuple _ => "tuple"
  | VDict _ => "dict"
  | VDataFrame _ _ => "DataFrame"
  | VObject t _ => t
  end.

(** An insertion-ordered [dict] with string keys: a fresh key goes last, an
    existing key keeps its place. *)
Fixpoint dict_get {A : Type} (k : string) (d : list (string * A)) : option A :=
  match d with
  | [] => None
  | (k', v) :: rest => if String.eqb k k' then Some v else dict_get k rest
  end.

Fixpoint dict_set {A : Type} (k : string) (v : A) (d : list (string * A))
  : list (string * A) :=
  match d with
  | [] => [(k, v)]
  | (k', v') :: rest =>
      if String.eqb k k' then (k, v) :: rest else (k', v') :: dict_set k v rest
  end.

(** [dict(pairs)]: later pairs overwrite earlier ones. *)
Definition dict_of_pairs {A : Type} (pairs : list (string * A))
  : list (string * A) :=
  fold_left (fun d kv => dict_set (fst kv) (snd kv) d) pairs [].

(** A [dict] whose keys are all strings, as a value. *)
Definition str_dict (d : list (string * pyval)) : pyval :=
  VDict (map (fun kv => (VStr (fst kv), snd kv)) d).

(** The session namespace, [self.global_namespace]. *)
Definition namespace : Type := list (string * pyval).

(** ** JSON

    What the transport delivers as [arguments]. *)
Inductive json : Type :=
| JNull
| JBool (b : bool)
| JNum (z : Z)
| JString (s : string)
| JArray (items : list json)
| JObject (fields : list (string * json)).

(** Truth value of a decoded JSON value ([not x] is its negation). *)
Definition truthy (j : json) : bool :=
  match j with
  | JNull => false
  | JBool b => b
  | JNum z => negb (Z.eqb z 0)
  | JString s => negb (String.eqb s EmptyString)
  | JArray items => match items with [] => false | _ => true end
  | JObject fields => match fields with [] => false | _ => true end
  end.

(** [arguments.get(key)]: [None] and a JSON null are the same value. *)
Definition args_get (key : string) (arguments : list (string * json)) : json :=
  match dict_get key arguments with
  | Some j => j
  | None => JNull
  end.

(** One character of a JSON string literal, as [json.dumps] writes it with
    its default [ensure_ascii=True]. *)
Definition json_escape_char (c : ascii) : string :=
  let n := nat_of_ascii c in
  if Ascii.eqb c DQUOTE then String BACKSLASH (str1 DQUOTE)
  else if Ascii.eqb c BACKSLASH then String BACKSLASH (str1 BACKSLASH)
  else if Ascii.eqb c LF then String BACKSLASH "n"
  else if Ascii.eqb c CR then String BACKSLASH "r"
  else if Ascii.eqb c TAB then String BACKSLASH "t"
  else if (n =? 8)%nat then String BACKSLASH "b"
  else if (n =? 12)%nat then String BACKSLASH "f"
  else if ((n <? 32) || (126 <? n))%nat then String BACKSLASH ("u00" ++ hex2 c)
  else str1 c.

Fixpoint json_escape (s : string) : string :=
  match s with
  | EmptyString => EmptyString
  | String c rest => json_escape_char c ++ json_escape rest
  end.

Definition json_string (s : string) : string :=
  str1 DQUOTE ++ json_escape s ++ str1 DQUOTE.

(** The text of a [dict] key, or the [TypeError] of [json.dumps]. *)
Definition json_key (k : pyval) : pyexc + string :=
  match k with
  | VStr s => inr (json_string s)
  | VInt z => inr (json_string (str_of_int z))
  | VBool true => inr (json_string "true")
  | VBool false => inr (json_string "false")
  | VNone => inr (json_string "null")
  | _ => inl (TypeError ("keys must be str, int, float, bool or None, not "
                         ++ type_name_of k))
  end.

Definition not_serializable (v : pyval) : pyexc :=
  TypeError ("Object of type " ++ type_name_of v ++ " is not JSON serializable").

(** [json.dumps(v)] with the default separators: the text, or the [TypeError]
    raised on the first value that has no JSON form. *)
Fixpoint json_dumps (v : pyval) : pyexc + string :=
  let items :=
    fix items (l : list pyval) : pyexc + list string :=
      match l with
      | [] => inr []
      | x :: rest =>
          match json_dumps x with
          | inl e => inl e
          | inr s => match items rest with
                     | inl e => inl e
                     | inr ss => inr (s :: ss)
                     end
          end
      end in
  match v with
  | VNone => inr "null"
  | VBool true => inr "true"
  | VBool false => inr "false"
  | VInt z => inr (str_of_int z)
  | VStr s => inr (json_string s)
  | VList l | VTuple l =>
      match items l with
      | inl e => inl e
      | inr ss => inr ("[" ++ join ", " ss ++ "]")
      end
  | VDict entries =>
      let fields :=
        fix fields (l : list (pyval * pyval)) : pyexc + list string :=
          match l with
          | [] => inr []
          | (k, x) :: rest =>
              match json_key k with
              | inl e => inl e
              | inr ks =>
                  match json_dumps x with
                  | inl e => inl e
                  | inr s => match fields rest with
                             | inl e => inl e
                             | inr ss => inr ((ks ++ ": " ++ s) :: ss)
                             end
                  end
              end
          end in
      match fields entries with
      | inl e => inl e
      | inr ss => inr ("{" ++ join ", " ss ++ "}")
      end
  | VDataFrame _ _ | VObject _ _ => inl (not_serializable v)
  end.

(** ** The process: streams and spawned commands *)

(** The file objects [sys.stdout] and [sys.stderr] can designate: the two
    streams of the process, or an [io.StringIO] buffer. *)
Inductive stream : Type :=
| Stdout
| Stderr
| StringIO (id : nat).

(** The state of the process outside the namespace.  A buffer holds its text,
    or [None] once it has been closed. *)
Record process := mk_process {
  sys_stdout : stream;
  sys_stderr : stream;
  console_out : string;
  console_err : string;
  buffers : list (option string);
  spawned : list (list string)
}.

Definition set_sys_stdout (s : stream) (p : process) : process :=
  mk_process s (sys_stderr p) (console_out p) (console_err p)
             (buffers p) (spawned p).

Definition set_sys_stderr (s : stream) (p : process) : process :=
  mk_process (sys_stdout p) s (console_out p) (console_err p)
             (buffers p) (spawned p).

(** [io.StringIO()]: a fresh, empty, open buffer. *)
Definition new_StringIO (p : process) : nat * process :=
  (List.length (buffers p),
   mk_process (sys_stdout p) (sys_stderr p) (console_out p) (console_err p)
              (buffers p ++ [Some EmptyString])%list (spawned p)).

(** [buf.getvalue()] *)
Definition getvalue (id : nat) (p : process) : pyexc + string :=
  match nth_error (buffers p) id with
  | Some (Some s) => inr s
  | _ => inl (ValueError "I/O operation on closed file")
  end.

Fixpoint buffer_append (id : nat) (s : string) (bufs : list (option string))
  : option (list (option string)) :=
  match bufs, id with
  | [], _ => None
  | Some old :: rest, O => Some (Some (old ++ s) :: rest)
  | None :: _, O => None
  | b :: rest, S id' =>
      match buffer_append id' s rest with
      | Some rest' => Some (b :: rest')
      | None => None
      end
  end.

(** [f.write(s)] on the file object [f]. *)
Definition stream_write (f : stream) (s : string) (p : process)
  : pyexc + process :=
  match f with
  | Stdout =>
      inr (mk_process (sys_stdout p) (sys_stderr p) (console_out p ++ s)
                      (console_err p) (buffers p) (spawned p))
  | Stderr =>
      inr (mk_process (sys_stdout p) (sys_stderr p) (console_out p)
                      (console_err p ++ s) (buffers p) (spawned p))
  | StringIO id =>
      match buffer_append id s (buffers p) with
      | Some bufs =>
          inr (mk_process (sys_stdout p) (sys_stderr p) (console_out p)
                          (console_err p) bufs (spawned p))
      | None => inl (ValueError "I/O operation on closed file")
      end
  end.

(** ** [repr] *)

Section Repr.

(** The display [pandas] gives a table, which is not modelled. *)
Variable table_repr : list string -> list (list pyval) -> string.


Definition repr_escape_char (quote c : ascii) : string :=
  let n := nat_of_ascii c in
  if Ascii.eqb c quote || Ascii.eqb c BACKSLASH then String BACKSLASH (str1 c)
  else if Ascii.eqb c TAB then String BACKSLASH "t"
  else if Ascii.eqb c LF then String BACKSLASH "n"
  else if Ascii.eqb c CR then String BACKSLASH "r"
  else if ((n <? 32) || ((127 <=? n) && (n <=? 160)) || (n =? 173))%nat
       then String BACKSLASH ("x" ++ hex2 c)
  else str1 c.

Fixpoint repr_escape (quote : ascii) (s : string) : string :=
  match s with
  | EmptyString => EmptyString
  | String c rest => repr_escape_char quote c ++ repr_escape quote rest
  end.

Fixpoint contains_char (c : ascii) (s : string) : bool :=
  match s with
  | EmptyString => false
  | String c' rest => Ascii.eqb c c' || contains_char c rest
  end.

(** [repr(s)] of a [str]: single quotes, unless the text has a single quote
    and no double quote. *)
Definition repr_str (s : string) : string :=
  let quote :=
    if contains_char SQUOTE s && negb (contains_char DQUOTE s)
    then DQUOTE else SQUOTE in
  str1 quote ++ repr_escape quote s ++ str1 quote.

(** [repr(v)]: the text, or the exception the object's own [__repr__] raises. *)
Fixpoint repr_with (v : pyval) : pyexc + string :=
  let items :=
    fix items (l : list pyval) : pyexc + list string :=
      match l with
      | [] => inr []
      | x :: rest =>
          match repr_with x with
          | inl e => inl e
          | inr s => match items rest with
                     | inl e => inl e
                     | inr ss => inr (s :: ss)
                     end
          end
      end in
  match v with
  | VNone => inr "None"
  | VBool true => inr "True"
  | VBool false => inr "False"
  | VInt z => inr (str_of_int z)
  | VStr s => inr (repr_str s)
  | VList l =>
      match items l with
      | inl e => inl e
      | inr ss => inr ("[" ++ join ", " ss ++ "]")
      end
  | VTuple l =>
      match items l with
      | inl e => inl e
      | inr [s] => inr ("(" ++ s ++ ",)")
      | inr ss => inr ("(" ++ join ", " ss ++ ")")
      end
  | VDict entries =>
      let fields :=
        fix fields (l : list (pyval * pyval)) : pyexc + list string :=
          match l with
          | [] => inr []
          | (k, x) :: rest =>
              match repr_with k with
              | inl e => inl e
              | inr ks =>
                  match repr_with x with
                  | inl e => inl e
                  | inr s => match fields rest with
                             | inl e => inl e
                             | inr ss => inr ((ks ++ ": " ++ s) :: ss)
                             end
                  end
              end
          end in
      match fields entries with
      | inl e => inl e
      | inr ss => inr ("{" ++ join ", " ss ++ "}")
      end
  | VDataFrame columns rows => inr (table_repr columns rows)
  | VObject _ r => r
  end.

End Repr.

(** ** Effects *)

(** How a run ends: normally with a value, or with an exception. *)
Inductive outcome (A : Type) : Type :=
| Normal (a : A)
| Raised (e : pyexc).
Arguments Normal {A} a.
Arguments Raised {A} e.

(** A piece of Python running against the session namespace and the process:
    both are mutated in place, so both come back whatever the outcome. *)
Definition effect (A : Type) : Type :=
  namespace -> process -> outcome A * namespace * process.

(** A top-level statement: an expression statement, or anything else. *)
Inductive statement (E O : Type) : Type :=
| ExprStmt (e : E)
| OtherStmt (o : O).
Arguments ExprStmt {E O} e.
Arguments OtherStmt {E O} o.

(** What the operating system answers to a spawned command: the command ran
    and exited, or it could not be started. *)
Inductive spawn_result : Type :=
| Exited (returncode : Z) (out err : string)
| NotStarted (e : pyexc).

(** What [subprocess.run(..., check=True)] gives its caller. *)
Inductive run_result : Type :=
| CompletedProcess (returncode : Z) (out err : string)
| CalledProcessError (returncode : Z) (out err : string)
| OtherError (e : pyexc).

(** The collaborators of the engine: the interpreter, split into its compiler
    and its evaluator, the library renderers, the two objects seeded into the
    namespace, and the operating system. *)
Class Runtime : Type := {
  expr : Type;
  other_stmt : Type;
  (** [compile(src, ..., 'exec')]: the top-level statements, or the message of
      the syntax error *)
  compile_exec : string -> string + list (statement expr other_stmt);
  (** [compile(src, ..., 'eval')] *)
  compile_eval : string -> string + expr;
  run_expr : expr -> effect pyval;
  run_other : other_stmt -> effect unit;
  (** [traceback.format_exc()] while the exception is handled *)
  format_exc : pyexc -> string;
  (** the display [pandas] gives a table *)
  pandas_repr : list string -> list (list pyval) -> string;
  (** the module [__builtins__] and the module [pandas] *)
  builtins : pyval;
  pd : pyval;
  (** the operating system running a command line *)
  spawn : list string -> process -> spawn_result * process
}.

(** ** What the handler returns and owns *)

(** [types.TextContent(type=..., text=...)] *)
Record TextContent := mk_content {
  type : string;
  text : string
}.

Definition text_content (t : string) : TextContent := mk_content "text" t.

(** What a call of the handler gives the transport: the content list it
    returns, or the exception it raises. *)
Inductive result (A : Type) : Type :=
| Return (a : A)
| Raise (e : pyexc).
Arguments Return {A} a.
Arguments Raise {A} e.

Record PythonREPLServer := mk_server {
  global_namespace : namespace
}.

Section Engine.

Context {R : Runtime}.

(** [repr(v)] with the table display of the runtime. *)
Definition repr : pyval -> pyexc + string := repr_with pandas_repr.

(** *** [exec] and [eval] *)

(** Both built-ins put a reference to the built-ins module under
    [__builtins__] when the globals they are given lack the key. *)
Definition ensure_builtins (ns : namespace) : namespace :=
  match dict_get "__builtins__" ns with
  | Some _ => ns
  | None => dict_set "__builtins__" builtins ns
  end.

(** An expression statement evaluates its expression and drops the value. *)
Definition run_stmt (s : statement expr other_stmt) : effect unit :=
  fun ns p =>
    match s with
    | ExprStmt e =>
        match run_expr e ns p with
        | (Normal _, ns', p') => (Normal tt, ns', p')
        | (Raised ex, ns', p') => (Raised ex, ns', p')
        end
    | OtherStmt o => run_other o ns p
    end.

(** The statements of a module body run in order; the first exception ends
    the run, and leaves the namespace and the process as they then are. *)
Fixpoint run_stmts (ss : list (statement expr other_stmt)) : effect unit :=
  fun ns p =>
    match ss with
    | [] => (Normal tt, ns, p)
    | s :: rest =>
        match run_stmt s ns p with
        | (Normal _, ns', p') => run_stmts rest ns' p'
        | (Raised ex, ns', p') => (Raised ex, ns', p')
        end
    end.

(** [exec(code, globals)] on a [str] *)
Definition py_exec (code : string) : effect unit :=
  fun ns p =>
    let ns := ensure_builtins ns in
    match compile_exec code with
    | inl msg => (Raised (SyntaxError msg), ns, p)
    | inr ss => run_stmts ss ns p
    end.

(** [eval(source, globals)] on a [str] *)
Definition py_eval (source : string) : effect pyval :=
  fun ns p =>
    let ns := ensure_builtins ns in
    match compile_eval source with
    | inl msg => (Raised (SyntaxError msg), ns, p)
    | inr e => run_expr e ns p
    end.

(** [exec(code, globals)] on whatever the arguments hold under [code]: a
    source that is no text is refused once the globals have their
    [__builtins__]. *)
Definition exec_arg (code : json) : effect unit :=
  fun ns p =>
    match code with
    | JString src => py_exec src ns p
    | _ => (Raised (TypeError "exec() arg 1 must be a string, bytes or code object"),
            ensure_builtins ns, p)
    end.

(** *** Output capture *)

(** [with redirect_stdout(target): body]: the slot is set on entry and set
    back to what it held on every exit, normal or not. *)
Definition redirect_stdout {A : Type} (target : stream) (body : effect A)
  : effect A :=
  fun ns p =>
    let old := sys_stdout p in
    match body ns (set_sys_stdout target p) with
    | (o, ns', p') => (o, ns', set_sys_stdout old p')
    end.

Definition redirect_stderr {A : Type} (target : stream) (body : effect A)
  : effect A :=
  fun ns p =>
    let old := sys_stderr p in
    match body ns (set_sys_stderr target p) with
    | (o, ns', p') => (o, ns', set_sys_stderr old p')
    end.

(** [with redirect_stdout(stdout), redirect_stderr(stderr): exec(code, ...)]
    for the buffers [out_buf] and [err_buf]. *)
Definition captured_exec (out_buf err_buf : nat) (code : json) : effect unit :=
  redirect_stdout (StringIO out_buf)
    (redirect_stderr (StringIO err_buf) (exec_arg code)).

(** *** [subprocess.run(cmd, capture_output=True, text=True, check=True)] *)
Definition subprocess_run (cmd : list string) (p : process)
  : run_result * process :=
  let p := mk_process (sys_stdout p) (sys_stderr p) (console_out p)
                      (console_err p) (buffers p) (spawned p ++ [cmd])%list in
  match spawn cmd p with
  | (Exited rc out err, p') =>
      if Z.eqb rc 0 then (CompletedProcess rc out err, p')
      else (CalledProcessError rc out err, p')
  | (NotStarted e, p') => (OtherError e, p')
  end.

(** *** The tool handler *)

(** [__init__]: the namespace a fresh server starts with. *)
Definition initial_namespace : namespace :=
  [("__builtins__", builtins); ("pd", pd)].

(** The reset branch: [clear()], then the two seeds are put back. *)
Definition reset_namespace (ns : namespace) : namespace :=
  dict_set "pd" pd (dict_set "__builtins__" builtins []).

Definition reset_message : string :=
  "Python session reset. All variables cleared.".

(** [code.strip()]: only a [str] has the method. *)
Definition code_strip (code : json) : pyexc + string :=
  match code with
  | JString src => inr (strip src)
  | _ => inl (mk_exc "AttributeError" std_bases "object has no attribute strip")
  end.

(** [df.to_dict(orient=records)]: one mapping from column label to cell per
    row, in row order. *)
Definition to_dict_records (columns : list string) (rows : list (list pyval))
  : pyval :=
  VList (map (fun row => str_dict (dict_of_pairs (combine columns row))) rows).

(** The [df_json] mapping of a table. *)
Definition df_json (columns : list string) (rows : list (list pyval)) : pyval :=
  str_dict
    [("type", VStr "dataframe");
     ("data", to_dict_records columns rows);
     ("columns", VList (map VStr columns));
     ("shape", VList [VInt (Z.of_nat (List.length rows));
                      VInt (Z.of_nat (List.length columns))])].

(** The [result] mapping before the final value is classified. *)
Definition captured_fields (output errors : string) : list (string * pyval) :=
  ((if String.eqb output EmptyString then [] else [("output", VStr output)])
   ++ (if String.eqb errors EmptyString then [] else [("errors", VStr errors)]))%list.

(** The [isinstance] chain on the final value, up to the [json.dumps] of the
    mapping that is returned. *)
Definition classify (fields : list (string * pyval)) (last_value : pyval)
  : pyexc + list TextContent :=
  match last_value with
  | VDataFrame columns rows =>
      match json_dumps (df_json columns rows) with
      | inl e => inl e
      | inr t => inr [text_content t]
      end
  | VList _ | VDict _ =>
      match json_dumps (str_dict (dict_set "result" last_value fields)) with
      | inl e => inl e
      | inr t => inr [text_content t]
      end
  | _ =>
      match repr last_value with
      | inl e => inl e
      | inr r =>
          match json_dumps (str_dict (dict_set "result" (VStr r) fields)) with
          | inl e => inl e
          | inr t => inr [text_content t]
          end
      end
  end.

(** The body of the [try] of the execute branch. *)
Definition try_execute (out_buf err_buf : nat) (code : json)
  : effect (list TextContent) :=
  fun ns p =>
    match captured_exec out_buf err_buf code ns p with
    | (Raised e, ns1, p1) => (Raised e, ns1, p1)
    | (Normal _, ns1, p1) =>
        match getvalue out_buf p1 with
        | inl e => (Raised e, ns1, p1)
        | inr output =>
            match getvalue err_buf p1 with
            | inl e => (Raised e, ns1, p1)
            | inr errors =>
                match code_strip code with
                | inl e => (Raised e, ns1, p1)
                | inr stripped =>
                    match py_eval (last (split LF stripped) EmptyString) ns1 p1 with
                    | (Raised e, ns2, p2) => (Raised e, ns2, p2)
                    | (Normal last_value, ns2, p2) =>
                        match classify (captured_fields output errors) last_value with
                        | inl e => (Raised e, ns2, p2)
                        | inr content => (Normal content, ns2, p2)
                        end
                    end
                end
            end
        end
    end.

(** A mapping with one string entry, encoded. *)
Definition dumps1 (key value : string) : string :=
  "{" ++ (json_string key ++ ": " ++ json_string value) ++ "}".

(** The error envelope of the execute branch. *)
Definition execution_error (e : pyexc) : list TextContent :=
  [text_content (dumps1 "error" ("Error executing code:" ++ str1 LF ++ format_exc e))].

(** [except Exception as e]: what is not an [Exception] goes on to the caller. *)
Definition except_Exception (e : pyexc) : result (list TextContent) :=
  if exc_isinstance e "Exception" then Return (execution_error e) else Raise e.

Definition execute_python (self : PythonREPLServer)
    (arguments : list (string * json)) (p : process)
  : result (list TextContent) * PythonREPLServer * process :=
  let code := args_get "code" arguments in
  if negb (truthy code) then
    (Raise (ValueError "Missing code parameter"), self, p)
  else if truthy (args_get "reset" arguments) then
    (Return [text_content reset_message],
     mk_server (reset_namespace (global_namespace self)), p)
  else
    let (out_buf, p) := new_StringIO p in
    let (err_buf, p) := new_StringIO p in
    match try_execute out_buf err_buf code (global_namespace self) p with
    | (Normal content, ns, p') => (Return content, mk_server ns, p')
    | (Raised e, ns, p') => (except_Exception e, mk_server ns, p')
    end.

(** *** The install branch *)

Definition is_alnum (c : ascii) : bool :=
  let n := nat_of_ascii c in
  (((48 <=? n) && (n <=? 57)) || ((65 <=? n) && (n <=? 90))
   || ((97 <=? n) && (n <=? 122)))%nat.

(** The class [[A-Za-z0-9._-]] *)
Definition in_name_class (c : ascii) : bool :=
  is_alnum c || Ascii.eqb c "."%char || Ascii.eqb c "_"%char
  || Ascii.eqb c "-"%char.

(** The rest of the pattern after its first class: the greedy run of the
    second class, then the dollar sign, which [re] lets match at the very end
    of the text and also just before a line feed that ends the text. *)
Fixpoint match_name_tail (s : string) : bool :=
  match s with
  | EmptyString => true
  | String c rest =>
      if in_name_class c then match_name_tail rest
      else Ascii.eqb c LF && String.eqb rest EmptyString
  end.

(** [re.match(pattern, package)] is not [None], for the pattern of the
    install branch. *)
Definition re_match_package (package : string) : bool :=
  match package with
  | EmptyString => false
  | String c rest => is_alnum c && match_name_tail rest
  end.

Definition bootstrap_cmd : list string := ["uv"; "pip"; "install"; "pip"].

Definition install_cmd (package : string) : list string :=
  ["uv"; "pip"; "install"; package].

(** [package.split('[')[0]] *)
Definition base_module (package : string) : string :=
  hd EmptyString (split "["%char package).

(** The second [try] of the install branch, entered once the name has passed
    the check: the package manager, then the import.  The import sits in a
    [try] of its own, for an [ImportError], inside the outer one: what the
    inner [except] lets through reaches the outer
    [except subprocess.CalledProcessError]. *)
Definition install_validated (self : PythonREPLServer) (pkg : string)
    (p1 : process)
  : result (list TextContent) * PythonREPLServer * process :=
  match subprocess_run (install_cmd pkg) p1 with
  | (CalledProcessError _ _ err, p2) =>
      (Return [text_content
                 (dumps1 "error" ("Failed to install package:" ++ str1 LF ++ err))],
       self, p2)
  | (OtherError e, p2) => (Raise e, self, p2)
  | (CompletedProcess rc _ err, p2) =>
      if negb (Z.eqb rc 0) then
        (Return [text_content
                   (dumps1 "error" ("Failed to install package: " ++ err))],
         self, p2)
      else
        match py_exec ("import " ++ base_module pkg)
                      (global_namespace self) p2 with
        | (Normal _, ns, p3) =>
            (Return [text_content
                       (dumps1 "success"
                          ("Successfully installed and imported " ++ pkg))],
             mk_server ns, p3)
        | (Raised e, ns, p3) =>
            if exc_isinstance e "ImportError" then
              (Return [text_content
                         (dumps1 "error"
                            ("Package installed but import failed: "
                             ++ exc_str e))],
               mk_server ns, p3)
            else if exc_isinstance e "CalledProcessError" then
              (Return [text_content
                         (dumps1 "error"
                            ("Failed to install package:" ++ str1 LF
                             ++ exc_stderr e))],
               mk_server ns, p3)
            else (Raise e, mk_server ns, p3)
        end
  end.

Definition invalid_package (pkg : string) : list TextContent :=
  [text_content (dumps1 "error" ("Invalid package name: " ++ pkg))].

Definition install_package (self : PythonREPLServer)
    (arguments : list (string * json)) (p : process)
  : result (list TextContent) * PythonREPLServer * process :=
  let package := args_get "package" arguments in
  if negb (truthy package) then
    (Raise (ValueError "Missing package name"), self, p)
  else
    match subprocess_run bootstrap_cmd p with
    | (CalledProcessError _ _ err, p1) =>
        (Return [text_content (dumps1 "error" ("Failed to install pip: " ++ err))],
         self, p1)
    | (OtherError e, p1) => (Raise e, self, p1)
    | (CompletedProcess _ _ _, p1) =>
        match package with
        | JString pkg =>
            if negb (re_match_package pkg) then
              (Return (invalid_package pkg), self, p1)
            else install_validated self pkg p1
        | _ =>
            (Raise (TypeError "expected string or bytes-like object"), self, p1)
        end
    end.

(** *** The listing branch *)

(** The comprehension over [global_namespace.items()].  The [repr] of an
    object is the text the model stores for it: a [__repr__] that runs code
    of the session is outside the model, and what is proved of the listing is
    stated for the values that have the interpreter's own [repr]. *)
Fixpoint vars_dict (items : namespace) (acc : list (string * pyval))
  : pyexc + list (string * pyval) :=
  match items with
  | [] => inr acc
  | (k, v) :: rest =>
      if negb (startswith "_"%char k) && negb (String.eqb k "__builtins__") then
        match repr v with
        | inl e => inl e
        | inr r => vars_dict rest (dict_set k (VStr r) acc)
        end
      else vars_dict rest acc
  end.

Definition list_variables (self : PythonREPLServer) (p : process)
  : result (list TextContent) * PythonREPLServer * process :=
  match vars_dict (global_namespace self) [] with
  | inl e => (Raise e, self, p)
  | inr vars =>
      match json_dumps (str_dict [("variables", str_dict vars)]) with
      | inl e => (Raise e, self, p)
      | inr t => (Return [text_content t], self, p)
      end
  end.

(** [handle_call_tool(self, name, arguments)] *)
Definition handle_call_tool (self : PythonREPLServer) (name : string)
    (arguments : option (list (string * json))) (p : process)
  : result (list TextContent) * PythonREPLServer * process :=
  match arguments with
  | None | Some [] => (Raise (ValueError "Missing arguments"), self, p)
  | Some args =>
      if String.eqb name "execute_python" then execute_python self args p
      else if String.eqb name "install_package" then install_package self args p
      else if String.eqb name "list_variables" then list_variables self p
      else (Raise (ValueError ("Unknown tool: " ++ name)), self, p)
  end.

(** *** The phases of an execute call, named for the statements below *)

(** The two buffers of a call that enters with the process [p], and the
    process once both are allocated. *)
Definition out_id (p : process) : nat := fst (new_StringIO p).
Definition err_id (p : process) : nat := fst (new_StringIO (snd (new_StringIO p))).
Definition capture_start (p : process) : process :=
  snd (new_StringIO (snd (new_StringIO p))).

(** The statement run of an execute call: the [with] block around [exec]. *)
Definition statement_run (self : PythonREPLServer) (code : json) (p : process)
  : outcome unit * namespace * process :=
  captured_exec (out_id p) (err_id p) code (global_namespace self)
                (capture_start p).

(** The slots of a process set back to those of [p]. *)
Definition restore (p p' : process) : process :=
  set_sys_stdout (sys_stdout p) (set_sys_stderr (sys_stderr p) p').

(** The process in which the statements of a call run: buffers allocated,
    both slots redirected. *)
Definition capturing (p : process) : process :=
  set_sys_stderr (StringIO (err_id p))
    (set_sys_stdout (StringIO (out_id p)) (capture_start p)).

(** The generic envelope around a final value. *)
Definition result_envelope (output errors : string) (value : pyval) : pyval :=
  str_dict (captured_fields output errors ++ [("result", value)])%list.

(** The values the classifier keeps structured, and the tables. *)
Definition is_structured (v : pyval) : bool :=
  match v with
  | VList _ | VDict _ => true
  | _ => false
  end.

Definition is_table (v : pyval) : bool :=
  match v with
  | VDataFrame _ _ => true
  | _ => false
  end.

(** The allow-list in the words of the data model: a first character that is
    a letter or a digit, then letters, digits, dots, underscores and
    hyphens. *)
Definition allow_listed (package : string) : bool :=
  match package with
  | EmptyString => false
  | String c rest =>
      is_alnum c && forallb in_name_class (list_ascii_of_string rest)
  end.

End Engine.

(** ** MiniPy: a concrete runtime

    A fragment of Python, enough to run the handler on real requests: integer,
    string and list values, names, the arithmetic operators, calls of [print],
    assignment expressions, and the statements assignment, [pass], [import]
    and a one-level [if].  Source outside the fragment is refused by the
    compiler of MiniPy with a syntax error, also where Python accepts it; inside
    the fragment the evaluator follows Python. *)
Module MiniPy.

Inductive sym : Type :=
| Plus | Minus | Star | SlashSlash
| LParen | RParen | LBrack | RBrack
| Comma | Equal | ColonEqual | Colon.

Inductive token : Type :=
| TInt (z : Z)
| TStr (s : string)
| TName (s : string)
| TSym (y : sym).

Definition sym_eqb (a b : sym) : bool :=
  match a, b with
  | Plus, Plus | Minus, Minus | Star, Star | SlashSlash, SlashSlash
  | LParen, LParen | RParen, RParen | LBrack, LBrack | RBrack, RBrack
  | Comma, Comma | Equal, Equal | ColonEqual, ColonEqual | Colon, Colon => true
  | _, _ => false
  end.

Definition is_digit (c : ascii) : bool :=
  let n := nat_of_ascii c in ((48 <=? n) && (n <=? 57))%nat.

Definition is_name_start (c : ascii) : bool :=
  let n := nat_of_ascii c in
  (((65 <=? n) && (n <=? 90)) || ((97 <=? n) && (n <=? 122)) || (n =? 95))%nat.

Definition is_name_char (c : ascii) : bool := is_name_start c || is_digit c.

(** The longest prefix of characters satisfying [f], and the rest. *)
Fixpoint span (f : ascii -> bool) (s : string) : string * string :=
  match s with
  | EmptyString => (EmptyString, EmptyString)
  | String c rest =>
      if f c then let (a, b) := span f rest in (String c a, b)
      else (EmptyString, s)
  end.

Fixpoint digits_value (s : string) (acc : Z) : Z :=
  match s with
  | EmptyString => acc
  | String c rest =>
      digits_value rest (10 * acc + Z.of_nat (nat_of_ascii c - 48))%Z
  end.

(** A decimal literal has no leading zero, unless it is made of zeros. *)
Definition decimal_ok (ds : string) : bool :=
  match ds with
  | String c (String _ _) =>
      negb (Ascii.eqb c "0"%char) || Z.eqb (digits_value ds 0) 0
  | _ => true
  end.

(** The body of a string literal up to its closing quote; the fragment has no
    escape sequences. *)
Fixpoint string_body (quote : ascii) (s : string) : option (string * string) :=
  match s with
  | EmptyString => None
  | String c rest =>
      if Ascii.eqb c quote then Some (EmptyString, rest)
      else if Ascii.eqb c BACKSLASH then None
      else match string_body quote rest with
           | Some (body, rest') => Some (String c body, rest')
           | None => None
           end
  end.

Definition sym1 (c : ascii) : option sym :=
  if Ascii.eqb c "+"%char then Some Plus
  else if Ascii.eqb c "-"%char then Some Minus
  else if Ascii.eqb c "*"%char then Some Star
  else if Ascii.eqb c "("%char then Some LParen
  else if Ascii.eqb c ")"%char then Some RParen
  else if Ascii.eqb c "["%char then Some LBrack
  else if Ascii.eqb c "]"%char then Some RBrack
  else if Ascii.eqb c ","%char then Some Comma
  else if Ascii.eqb c "="%char then Some Equal
  else if Ascii.eqb c ":"%char then Some Colon
  else None.

(** The tokens of one line; [None] is a lexical error.  Every step consumes
    at least one character, so a fuel above the length of the line is never
    used up. *)
Fixpoint lex (fuel : nat) (s : string) : option (list token) :=
  match fuel with
  | O => None
  | S fuel =>
      match s with
      | EmptyString => Some []
      | String c rest =>
          if Ascii.eqb c " "%char || Ascii.eqb c TAB then lex fuel rest
          else if Ascii.eqb c "#"%char then Some []
          else if is_digit c then
            let (ds, rest') := span is_digit s in
            if decimal_ok ds
               && negb (match rest' with
                        | String c' _ => is_name_char c'
                        | EmptyString => false
                        end)
            then option_map (cons (TInt (digits_value ds 0))) (lex fuel rest')
            else None
          else if is_name_start c then
            let (name, rest') := span is_name_char s in
            option_map (cons (TName name)) (lex fuel rest')
          else if Ascii.eqb c SQUOTE || Ascii.eqb c DQUOTE then
            match string_body c rest with
            | Some (body, rest') => option_map (cons (TStr body)) (lex fuel rest')
            | None => None
            end
          else
            match c, rest with
            | "/"%char, String "/"%char (String "="%char _) => None
            | "/"%char, String "/"%char rest' =>
                option_map (cons (TSym SlashSlash)) (lex fuel rest')
            | ":"%char, String "="%char rest' =>
                option_map (cons (TSym ColonEqual)) (lex fuel rest')
            | _, _ =>
                match sym1 c, rest with
                | Some Equal, String "="%char _ => None
                | Some Plus, String "="%char _ => None
                | Some Minus, String "="%char _ => None
                | Some Minus, String ">"%char _ => None
                | Some Star, String "="%char _ => None
                | Some Star, String "*"%char _ => None
                | Some y, _ => option_map (cons (TSym y)) (lex fuel rest)
                | None, _ => None
                end
            end
      end
  end.

Definition tokens_of (line : string) : option (list token) :=
  lex (S (String.length line)) line.

(** *** Syntax *)

Inductive binop : Type := Add | Sub | Mul | FloorDiv.

Inductive expr : Type :=
| EInt (z : Z)
| EStr (s : string)
| ENone
| EBool (b : bool)
| EName (x : string)
| EList (items : list expr)
| EBin (op : binop) (l r : expr)
| ENeg (e : expr)
| ECall (f : expr) (args : list expr)
| EWalrus (x : string) (e : expr).

Inductive stmt : Type :=
| SExpr (e : expr)
| SAssign (x : string) (e : expr)
| SPass
| SImport (x : string)
| SIf (cond : expr) (body : list stmt).

Definition keywords : list string :=
  ["False"; "None"; "True"; "and"; "as"; "assert"; "async"; "await"; "break";
   "class"; "continue"; "def"; "del"; "elif"; "else"; "except"; "finally";
   "for"; "from"; "global"; "if"; "import"; "in"; "is"; "lambda"; "nonlocal";
   "not"; "or"; "pass"; "raise"; "return"; "try"; "while"; "with"; "yield"].

(** The names the built-ins module binds, [print] apart: the fragment has no
    value for them, so its compiler refuses them. *)
Definition other_builtin_names : list string :=
  ["ArithmeticError"; "AssertionError"; "AttributeError"; "BaseException";
   "BaseExceptionGroup"; "BlockingIOError"; "BrokenPipeError"; "BufferError";
   "BytesWarning"; "ChildProcessError"; "ConnectionAbortedError";
   "ConnectionError"; "ConnectionRefusedError"; "ConnectionResetError";
   "DeprecationWarning"; "EOFError"; "Ellipsis"; "EncodingWarning";
   "EnvironmentError"; "Exception"; "ExceptionGroup"; "FileExistsError";
   "FileNotFoundError"; "FloatingPointError"; "FutureWarning"; "GeneratorExit";
   "IOError"; "ImportError"; "ImportWarning"; "IndentationError"; "IndexError";
   "InterruptedError"; "IsADirectoryError"; "KeyError"; "KeyboardInterrupt";
   "LookupError"; "MemoryError"; "ModuleNotFoundError"; "NameError";
   "NotADirectoryError"; "NotImplemented"; "NotImplementedError"; "OSError";
   "OverflowError"; "PendingDeprecationWarning"; "PermissionError";
   "ProcessLookupError"; "PythonFinalizationError"; "RecursionError";
   "ReferenceError"; "ResourceWarning"; "RuntimeError"; "RuntimeWarning";
   "StopAsyncIteration"; "StopIteration"; "SyntaxError"; "SyntaxWarning";
   "SystemError"; "SystemExit"; "TabError"; "TimeoutError"; "TypeError";
   "UnboundLocalError"; "UnicodeDecodeError"; "UnicodeEncodeError";
   "UnicodeError"; "UnicodeTranslateError"; "UnicodeWarning"; "UserWarning";
   "ValueError"; "Warning"; "ZeroDivisionError";
   "abs"; "aiter"; "all"; "anext"; "any"; "ascii"; "bin"; "bool"; "breakpoint";
   "bytearray"; "bytes"; "callable"; "chr"; "classmethod"; "compile"; "complex";
   "copyright"; "credits"; "delattr"; "dict"; "dir"; "divmod"; "enumerate";
   "eval"; "exec"; "exit"; "filter"; "float"; "format"; "frozenset"; "getattr";
   "globals"; "hasattr"; "hash"; "help"; "hex"; "id"; "input"; "int";
   "isinstance"; "issubclass"; "iter"; "len"; "license"; "list"; "locals";
   "map"; "max"; "memoryview"; "min"; "next"; "object"; "oct"; "open"; "ord";
   "pow"; "property"; "quit"; "range"; "repr"; "reversed"; "round"; "set";
   "setattr"; "slice"; "sorted"; "staticmethod"; "str"; "sum"; "super";
   "tuple"; "type"; "vars"; "zip"; "WindowsError"; "_IncompleteInputError"].

Definition mem (x : string) (l : list string) : bool := existsb (String.eqb x) l.

(** A name the fragment lets a program read: not a keyword, not a built-in
    other than [print], and no double-underscore name other than
    [__builtins__] (the built-ins module binds some of them). *)
Definition readable_name (x : string) : bool :=
  negb (mem x keywords) && negb (mem x other_builtin_names)
  && (String.eqb x "__builtins__"
      || negb (match x with
               | String "_"%char (String "_"%char _) => true
               | _ => false
               end)).

(** A name the fragment lets a program bind. *)
Definition bindable_name (x : string) : bool :=
  readable_name x && negb (String.eqb x "__builtins__").

(** The expression parser, by recursive descent: each function takes the
    tokens and gives the tree with the tokens left over.  Every call goes down
    one unit of fuel; [parse_fuel] is more than a token list can use. *)
Fixpoint parse_sum (fuel : nat) (ts : list token) : option (expr * list token) :=
  match fuel with
  | O => None
  | S fuel =>
      match parse_term fuel ts with
      | Some (e, ts') => sum_tail fuel e ts'
      | None => None
      end
  end
with sum_tail (fuel : nat) (acc : expr) (ts : list token)
  : option (expr * list token) :=
  match fuel with
  | O => None
  | S fuel =>
      match ts with
      | TSym Plus :: ts' =>
          match parse_term fuel ts' with
          | Some (e, ts'') => sum_tail fuel (EBin Add acc e) ts''
          | None => None
          end
      | TSym Minus :: ts' =>
          match parse_term fuel ts' with
          | Some (e, ts'') => sum_tail fuel (EBin Sub acc e) ts''
          | None => None
          end
      | _ => Some (acc, ts)
      end
  end
with parse_term (fuel : nat) (ts : list token) : option (expr * list token) :=
  match fuel with
  | O => None
  | S fuel =>
      match parse_factor fuel ts with
      | Some (e, ts') => term_tail fuel e ts'
      | None => None
      end
  end
with term_tail (fuel : nat) (acc : expr) (ts : list token)
  : option (expr * list token) :=
  match fuel with
  | O => None
  | S fuel =>
      match ts with
      | TSym Star :: ts' =>
          match parse_factor fuel ts' with
          | Some (e, ts'') => term_tail fuel (EBin Mul acc e) ts''
          | None => None
          end
      | TSym SlashSlash :: ts' =>
          match parse_factor fuel ts' with
          | Some (e, ts'') => term_tail fuel (EBin FloorDiv acc e) ts''
          | None => None
          end
      | _ => Some (acc, ts)
      end
  end
with parse_factor (fuel : nat) (ts : list token) : option (expr * list token) :=
  match fuel with
  | O => None
  | S fuel =>
      match ts with
      | TSym Minus :: ts' =>
          match parse_factor fuel ts' with
          | Some (e, ts'') => Some (ENeg e, ts'')
          | None => None
          end
      | _ =>
          match parse_atom fuel ts with
          | Some (e, ts') => call_tail fuel e ts'
          | None => None
          end
      end
  end
with call_tail (fuel : nat) (acc : expr) (ts : list token)
  : option (expr * list token) :=
  match fuel with
  | O => None
  | S fuel =>
      match ts with
      | TSym LParen :: ts' =>
          match parse_items fuel RParen ts' with
          | Some (args, ts'') => call_tail fuel (ECall acc args) ts''
          | None => None
          end
      | _ => Some (acc, ts)
      end
  end
with parse_atom (fuel : nat) (ts : list token) : option (expr * list token) :=
  match fuel with
  | O => None
  | S fuel =>
      match ts with
      | TInt z :: ts' => Some (EInt z, ts')
      | TStr s :: ts' =>
          match ts' with
          | TStr _ :: _ => None
          | _ => Some (EStr s, ts')
          end
      | TName x :: ts' =>
          if String.eqb x "None" then Some (ENone, ts')
          else if String.eqb x "True" then Some (EBool true, ts')
          else if String.eqb x "False" then Some (EBool false, ts')
          else if readable_name x then
            match ts' with
            | TStr _ :: _ => None
            | _ => Some (EName x, ts')
            end
          else None
      | TSym LParen :: TName x :: TSym ColonEqual :: ts' =>
          if bindable_name x then
            match parse_sum fuel ts' with
            | Some (e, TSym RParen :: ts'') => Some (EWalrus x e, ts'')
            | _ => None
            end
          else None
      | TSym LParen :: ts' =>
          match parse_sum fuel ts' with
          | Some (e, TSym RParen :: ts'') => Some (e, ts'')
          | _ => None
          end
      | TSym LBrack :: ts' =>
          match parse_items fuel RBrack ts' with
          | Some (items, ts'') => Some (EList items, ts'')
          | None => None
          end
      | _ => None
      end
  end
with parse_items (fuel : nat) (close : sym) (ts : list token)
  : option (list expr * list token) :=
  match fuel with
  | O => None
  | S fuel =>
      let nonempty :=
        match parse_sum fuel ts with
        | Some (e, TSym Comma :: ts') =>
            match parse_items fuel close ts' with
            | Some (es, ts'') => Some (e :: es, ts'')
            | None => None
            end
        | Some (e, TSym y :: ts') =>
            if sym_eqb y close then Some ([e], ts') else None
        | _ => None
        end in
      match ts with
      | TSym y :: ts' => if sym_eqb y close then Some ([], ts') else nonempty
      | _ => nonempty
      end
  end.

Definition parse_fuel (ts : list token) : nat := 8 * List.length ts + 8.

(** A whole expression: no token is left over. *)
Definition parse_expr (ts : list token) : option expr :=
  match parse_sum (parse_fuel ts) ts with
  | Some (e, []) => Some e
  | _ => None
  end.

(** A simple statement, on one line. *)
Definition parse_simple (ts : list token) : option stmt :=
  match ts with
  | TName x :: TSym Equal :: rest =>
      if bindable_name x then option_map (SAssign x) (parse_expr rest) else None
  | [TName k; TName x] =>
      if String.eqb k "import" && bindable_name x then Some (SImport x) else None
  | [TName k] =>
      if String.eqb k "pass" then Some SPass else option_map SExpr (parse_expr ts)
  | _ => option_map SExpr (parse_expr ts)
  end.

(** The condition of an [if] header, when the line is one: [if], the tokens
    of an expression, a colon, and nothing after it. *)
Definition parse_if_header (ts : list token) : option (option expr) :=
  match ts with
  | TName k :: rest =>
      if String.eqb k "if" then
        match last rest (TSym Comma) with
        | TSym Colon => Some (parse_expr (removelast rest))
        | _ => Some None
        end
      else None
  | _ => None
  end.

(** The indentation of a line, in spaces, and the rest of the line; a tab in
    the indentation is refused. *)
Fixpoint indentation (s : string) : option (nat * string) :=
  match s with
  | String c rest =>
      if Ascii.eqb c " "%char then
        match indentation rest with
        | Some (n, body) => Some (S n, body)
        | None => None
        end
      else if Ascii.eqb c TAB then None
      else Some (O, s)
  | EmptyString => Some (O, s)
  end.

(** The [if] statement whose body is being read: its condition, the
    indentation of its body once known, the body so far in reverse. *)
Definition open_if : Type := expr * nat * list stmt.

Definition close_if (done : list stmt) (blk : option open_if)
  : option (list stmt) :=
  match blk with
  | None => Some done
  | Some (_, _, []) => None
  | Some (cond, _, body) => Some (SIf cond (rev body) :: done)
  end.

(** The statements of a module, line after line: [done] holds the finished
    top-level statements in reverse. *)
Fixpoint parse_lines (lines : list string) (done : list stmt)
    (blk : option open_if) : option (list stmt) :=
  match lines with
  | [] => option_map (@rev stmt) (close_if done blk)
  | line :: rest =>
      match indentation line with
      | None => None
      | Some (ind, body) =>
          match tokens_of body with
          | None => None
          | Some [] => parse_lines rest done blk
          | Some ts =>
              match ind, blk with
              | S _, None => None
              | S _, Some (cond, _, []) =>
                  match parse_simple ts with
                  | Some st => parse_lines rest done (Some (cond, ind, [st]))
                  | None => None
                  end
              | S _, Some (cond, body_ind, stmts) =>
                  if Nat.eqb ind body_ind then
                    match parse_simple ts with
                    | Some st =>
                        parse_lines rest done (Some (cond, body_ind, st :: stmts))
                    | None => None
                    end
                  else None
              | O, _ =>
                  match close_if done blk with
                  | None => None
                  | Some done' =>
                      match parse_if_header ts with
                      | Some (Some cond) =>
                          parse_lines rest done' (Some (cond, O, []))
                      | Some None => None
                      | None =>
                          match parse_simple ts with
                          | Some st => parse_lines rest (st :: done') None
                          | None => None
                          end
                      end
                  end
              end
          end
      end
  end.

Definition syntax_message : string := "invalid syntax".

Definition top_level (st : stmt) : statement expr stmt :=
  match st with
  | SExpr e => ExprStmt e
  | _ => OtherStmt st
  end.

(** [compile(code, ..., exec)] *)
Definition compile_exec (code : string)
  : string + list (statement expr stmt) :=
  match parse_lines (split LF code) [] None with
  | Some stmts => inr (map top_level stmts)
  | None => inl syntax_message
  end.

(** [compile(source, ..., eval)]: one expression, whatever blanks surround
    it. *)
Definition compile_eval (source : string) : string + expr :=
  match tokens_of source with
  | Some ts =>
      match parse_expr ts with
      | Some e => inr e
      | None => inl syntax_message
      end
  | None => inl syntax_message
  end.

(** *** Evaluation *)

Definition builtins_module : pyval :=
  VObject "module"
    (inr ("<module " ++ str1 SQUOTE ++ "builtins" ++ str1 SQUOTE ++ " (built-in)>")).

(** The [repr] of the module [pandas]; the path is the one of the
    installation. *)
Definition pandas_text : string :=
  "<module " ++ str1 SQUOTE ++ "pandas" ++ str1 SQUOTE ++ " from "
  ++ str1 SQUOTE ++ "site-packages/pandas/__init__.py" ++ str1 SQUOTE ++ ">".

Definition pandas_module : pyval := VObject "module" (inr pandas_text).

Definition print_repr : string := "<built-in function print>".

Definition print_function : pyval :=
  VObject "builtin_function_or_method" (inr print_repr).

Definition is_print (v : pyval) : bool :=
  match v with
  | VObject _ (inr r) => String.eqb r print_repr
  | _ => false
  end.

(** The table display is reduced to its closing line. *)
Definition table_repr (columns : list string) (rows : list (list pyval))
  : string :=
  "[" ++ str_of_int (Z.of_nat (List.length rows)) ++ " rows x "
  ++ str_of_int (Z.of_nat (List.length columns)) ++ " columns]".

(** [str(v)] *)
Definition str (v : pyval) : pyexc + string :=
  match v with
  | VStr s => inr s
  | _ => repr_with table_repr v
  end.

(** The value of a name: the globals, then the built-ins. *)
Definition lookup (x : string) (ns : namespace) : outcome pyval :=
  match dict_get x ns with
  | Some v => Normal v
  | None => if String.eqb x "print" then Normal print_function
            else Raised (NameError x)
  end.

Definition as_int (v : pyval) : option Z :=
  match v with
  | VInt z => Some z
  | VBool true => Some 1%Z
  | VBool false => Some 0%Z
  | _ => None
  end.

Definition quoted (s : string) : string := str1 SQUOTE ++ s ++ str1 SQUOTE.

Definition unsupported (op : string) (a b : pyval) : pyexc :=
  TypeError ("unsupported operand type(s) for " ++ op ++ ": "
             ++ quoted (type_name_of a) ++ " and " ++ quoted (type_name_of b)).

Fixpoint string_repeat (n : nat) (s : string) : string :=
  match n with
  | O => EmptyString
  | S n => s ++ string_repeat n s
  end.

Fixpoint list_repeat {A : Type} (n : nat) (l : list A) : list A :=
  match n with
  | O => []
  | S n => (l ++ list_repeat n l)%list
  end.

Definition binop_apply (op : binop) (a b : pyval) : outcome pyval :=
  match op with
  | Add =>
      match as_int a, as_int b, a, b with
      | Some x, Some y, _, _ => Normal (VInt (x + y))
      | _, _, VStr x, VStr y => Normal (VStr (x ++ y))
      | _, _, VList x, VList y => Normal (VList (x ++ y))
      | _, _, VTuple x, VTuple y => Normal (VTuple (x ++ y))
      | _, _, _, _ => Raised (unsupported "+" a b)
      end
  | Sub =>
      match as_int a, as_int b with
      | Some x, Some y => Normal (VInt (x - y))
      | _, _ => Raised (unsupported "-" a b)
      end
  | Mul =>
      match as_int a, as_int b, a, b with
      | Some x, Some y, _, _ => Normal (VInt (x * y))
      | Some n, _, _, VStr y | _, Some n, VStr y, _ =>
          Normal (VStr (string_repeat (Z.to_nat n) y))
      | Some n, _, _, VList y | _, Some n, VList y, _ =>
          Normal (VList (list_repeat (Z.to_nat n) y))
      | Some n, _, _, VTuple y | _, Some n, VTuple y, _ =>
          Normal (VTuple (list_repeat (Z.to_nat n) y))
      | _, _, _, _ => Raised (unsupported "*" a b)
      end
  | FloorDiv =>
      match as_int a, as_int b with
      | Some x, Some y =>
          if Z.eqb y 0 then
            Raised (ZeroDivisionError "integer division or modulo by zero")
          else Normal (VInt (x / y))
      | _, _ => Raised (unsupported "//" a b)
      end
  end.

Definition neg_apply (a : pyval) : outcome pyval :=
  match as_int a with
  | Some x => Normal (VInt (- x))
  | None => Raised (TypeError ("bad operand type for unary -: "
                               ++ quoted (type_name_of a)))
  end.

(** A call of [print]: each argument is converted and written in turn to the
    file object [sys.stdout] then holds, a space between two, a line feed
    last. *)
Fixpoint print_args (first : bool) (args : list pyval) (p : process)
  : outcome pyval * process :=
  match args with
  | [] =>
      match stream_write (sys_stdout p) (str1 LF) p with
      | inr p' => (Normal VNone, p')
      | inl e => (Raised e, p)
      end
  | a :: rest =>
      match (if first then inr p else stream_write (sys_stdout p) " " p) with
      | inl e => (Raised e, p)
      | inr p1 =>
          match str a with
          | inl e => (Raised e, p1)
          | inr s =>
              match stream_write (sys_stdout p1) s p1 with
              | inr p2 => print_args false rest p2
              | inl e => (Raised e, p1)
              end
          end
      end
  end.

Definition call (f : pyval) (args : list pyval) (p : process)
  : outcome pyval * process :=
  if is_print f then print_args true args p
  else (Raised (TypeError (quoted (type_name_of f) ++ " object is not callable")), p).

(** The evaluation of an expression, left to right. *)
Fixpoint eval (e : expr) (ns : namespace) (p : process) {struct e}
  : outcome pyval * namespace * process :=
  let eval_items :=
    fix eval_items (l : list expr) (ns : namespace) (p : process) {struct l}
      : outcome (list pyval) * namespace * process :=
      match l with
      | [] => (Normal [], ns, p)
      | x :: rest =>
          match eval x ns p with
          | (Raised ex, ns1, p1) => (Raised ex, ns1, p1)
          | (Normal v, ns1, p1) =>
              match eval_items rest ns1 p1 with
              | (Raised ex, ns2, p2) => (Raised ex, ns2, p2)
              | (Normal vs, ns2, p2) => (Normal (v :: vs), ns2, p2)
              end
          end
      end in
  match e with
  | EInt z => (Normal (VInt z), ns, p)
  | EStr s => (Normal (VStr s), ns, p)
  | ENone => (Normal VNone, ns, p)
  | EBool b => (Normal (VBool b), ns, p)
  | EName x => (lookup x ns, ns, p)
  | EList items =>
      match eval_items items ns p with
      | (Raised ex, ns1, p1) => (Raised ex, ns1, p1)
      | (Normal vs, ns1, p1) => (Normal (VList vs), ns1, p1)
      end
  | EBin op l r =>
      match eval l ns p with
      | (Raised ex, ns1, p1) => (Raised ex, ns1, p1)
      | (Normal a, ns1, p1) =>
          match eval r ns1 p1 with
          | (Raised ex, ns2, p2) => (Raised ex, ns2, p2)
          | (Normal b, ns2, p2) => (binop_apply op a b, ns2, p2)
          end
      end
  | ENeg e1 =>
      match eval e1 ns p with
      | (Raised ex, ns1, p1) => (Raised ex, ns1, p1)
      | (Normal a, ns1, p1) => (neg_apply a, ns1, p1)
      end
  | ECall f args =>
      match eval f ns p with
      | (Raised ex, ns1, p1) => (Raised ex, ns1, p1)
      | (Normal fv, ns1, p1) =>
          match eval_items args ns1 p1 with
          | (Raised ex, ns2, p2) => (Raised ex, ns2, p2)
          | (Normal vs, ns2, p2) =>
              match call fv vs p2 with
              | (o, p3) => (o, ns2, p3)
              end
          end
      end
  | EWalrus x e1 =>
      match eval e1 ns p with
      | (Raised ex, ns1, p1) => (Raised ex, ns1, p1)
      | (Normal v, ns1, p1) => (Normal v, dict_set x v ns1, p1)
      end
  end.

(** The truth value of a condition; a table has none. *)
Definition truth (v : pyval) : outcome bool :=
  match v with
  | VNone => Normal false
  | VBool b => Normal b
  | VInt z => Normal (negb (Z.eqb z 0))
  | VStr s => Normal (negb (String.eqb s EmptyString))
  | VList l | VTuple l => Normal (match l with [] => false | _ => true end)
  | VDict d => Normal (match d with [] => false | _ => true end)
  | VDataFrame _ _ =>
      Raised (ValueError "The truth value of a DataFrame is ambiguous.")
  | VObject _ _ => Normal true
  end.

Definition ModuleNotFoundError (x : string) : pyexc :=
  mk_exc "ModuleNotFoundError" ("ImportError" :: std_bases)
         ("No module named " ++ quoted x).

(** The modules of the world of MiniPy: the two the server seeds. *)
Definition find_module (x : string) : option pyval :=
  if String.eqb x "pandas" then Some pandas_module
  else if String.eqb x "builtins" then Some builtins_module
  else None.

(** The execution of a statement. *)
Fixpoint run (st : stmt) (ns : namespace) (p : process) {struct st}
  : outcome unit * namespace * process :=
  match st with
  | SExpr e =>
      match eval e ns p with
      | (Raised ex, ns1, p1) => (Raised ex, ns1, p1)
      | (Normal _, ns1, p1) => (Normal tt, ns1, p1)
      end
  | SAssign x e =>
      match eval e ns p with
      | (Raised ex, ns1, p1) => (Raised ex, ns1, p1)
      | (Normal v, ns1, p1) => (Normal tt, dict_set x v ns1, p1)
      end
  | SPass => (Normal tt, ns, p)
  | SImport x =>
      match find_module x with
      | Some m => (Normal tt, dict_set x m ns, p)
      | None => (Raised (ModuleNotFoundError x), ns, p)
      end
  | SIf cond body =>
      match eval cond ns p with
      | (Raised ex, ns1, p1) => (Raised ex, ns1, p1)
      | (Normal v, ns1, p1) =>
          match truth v with
          | Raised ex => (Raised ex, ns1, p1)
          | Normal false => (Normal tt, ns1, p1)
          | Normal true =>
              (fix run_body (l : list stmt) (ns : namespace) (p : process)
                   {struct l} : outcome unit * namespace * process :=
                 match l with
                 | [] => (Normal tt, ns, p)
                 | s :: rest =>
                     match run s ns p with
                     | (Raised ex, ns2, p2) => (Raised ex, ns2, p2)
                     | (Normal _, ns2, p2) => run_body rest ns2 p2
                     end
                 end) body ns1 p1
          end
      end
  end.

(** The trace [traceback.format_exc] gives, its frame lines left out. *)
Definition format_exc (e : pyexc) : string :=
  "Traceback (most recent call last):" ++ str1 LF
  ++ exc_class e ++ ": " ++ exc_str e ++ str1 LF.

(** An operating system on which every command runs and exits with status
    zero and no output. *)
Definition spawn (cmd : list string) (p : process) : spawn_result * process :=
  (Exited 0 EmptyString EmptyString, p).

#[export] Instance runtime : Runtime := {
  Spec2Rocq.expr := expr;
  Spec2Rocq.other_stmt := stmt;
  Spec2Rocq.compile_exec := compile_exec;
  Spec2Rocq.compile_eval := compile_eval;
  Spec2Rocq.run_expr := eval;
  Spec2Rocq.run_other := run;
  Spec2Rocq.format_exc := format_exc;
  Spec2Rocq.pandas_repr := table_repr;
  Spec2Rocq.builtins := builtins_module;
  Spec2Rocq.pd := pandas_module;
  Spec2Rocq.spawn := spawn
}.

(** The same runtime on a machine without network: every command exits
    with status one and a line of error output. *)
Definition spawn_offline (cmd : list string) (p : process)
  : spawn_result * process :=
  (Exited 1 EmptyString "error: network unreachable", p).

Definition offline_runtime : Runtime :=
  Build_Runtime expr stmt compile_exec compile_eval eval run format_exc
                table_repr builtins_module pandas_module spawn_offline.

(** The same runtime in a world where importing a module runs a command
    that fails: the import raises the [CalledProcessError] of that command,
    with its error output. *)
Definition import_error : pyexc :=
  mk_pyexc "CalledProcessError" ("SubprocessError" :: std_bases)
           "Command returned non-zero exit status 1." "setup failed".

Definition run_shelling (st : stmt) (ns : namespace) (p : process)
  : outcome unit * namespace * process :=
  match st with
  | SImport _ => (Raised import_error, ns, p)
  | _ => run st ns p
  end.

Definition shelling_runtime : Runtime :=
  Build_Runtime expr stmt compile_exec compile_eval eval run_shelling
                format_exc table_repr builtins_module pandas_module spawn.

(** A process that has run nothing yet, and the server as [__init__] leaves
    it. *)
Definition fresh_process : process :=
  mk_process Stdout Stderr EmptyString EmptyString [] [].

Definition fresh_server : PythonREPLServer := mk_server initial_namespace.

(** The arguments of an execute request that carries only its code. *)
Definition execute_request (code : string) : option (list (string * json)) :=
  Some [("code", JString code)].

(** An execute request that also carries the reset flag. *)
Definition reset_request (code : string) : option (list (string * json)) :=
  Some [("code", JString code); ("reset", JBool true)].

Definition install_request (package : string)
  : option (list (string * json)) :=
  Some [("package", JString package)].

(** Source text from its lines. *)
Definition lines (l : list string) : string := join (str1 LF) l.

(** A server whose namespace holds the seeds and the bindings [bound]. *)
Definition server_with (bound : list (string * pyval)) : PythonREPLServer :=
  mk_server (initial_namespace ++ bound)%list.

(** A process that has made two calls worth of nothing: the state a call
    reaches from [fresh_process] when it wrote [out] under capture and
    [console] outside. *)
Definition after_call (console out : string) : process :=
  mk_process Stdout Stderr console EmptyString
             [Some out; Some EmptyString] [].


(** A two by two table of integers, and a table that holds a timestamp. *)
Definition small_table : pyval :=
  VDataFrame ["a"; "b"] [[VInt 1; VInt 2]; [VInt 3; VInt 4]].

Definition dated_table : pyval :=
  VDataFrame ["t"]
    [[VObject "Timestamp"
        (inr ("Timestamp(" ++ str1 SQUOTE ++ "2020-01-01 00:00:00"
              ++ str1 SQUOTE ++ ")"))]].

(** A call of the execute tool on this runtime. *)
Definition execute (self : PythonREPLServer) (code : string) (p : process)
  : result (list TextContent) * PythonREPLServer * process :=
  handle_call_tool self "execute_python" (execute_request code) p.

End MiniPy.

(** ** The tool list and the listing filter *)

(** [types.Tool(name=..., description=..., inputSchema=...)] *)
Record Tool := mk_tool {
  name : string;
  description : string;
  inputSchema : json
}.

(** [handle_list_tools]: the three tools the server advertises, with the
    JSON schema of their arguments. *)
Definition handle_list_tools : list Tool :=
  [mk_tool "execute_python"
     "Execute Python code and return the output. Variables persist between executions."
     (JObject
        [("type", JString "object");
         ("properties",
          JObject
            [("code",
              JObject [("type", JString "string");
                       ("description", JString "Python code to execute")]);
             ("reset",
              JObject [("type", JString "boolean");
                       ("description",
                        JString "Reset the Python session (clear all variables)");
                       ("default", JBool false)])]);
         ("required", JArray [JString "code"])]);
   mk_tool "list_variables"
     "List all variables in the current session"
     (JObject [("type", JString "object"); ("properties", JObject [])]);
   mk_tool "install_package"
     "Install a Python package using uv"
     (JObject
        [("type", JString "object");
         ("properties",
          JObject
            [("package",
              JObject [("type", JString "string");
                       ("description",
                        JString "Package name to install (e.g., 'pandas')")])]);
         ("required", JArray [JString "package"])])].

(** The keys a schema lists under [required]. *)
Definition required_keys (schema : json) : list string :=
  match schema with
  | JObject fields =>
      match dict_get "required" fields with
      | Some (JArray items) =>
          flat_map (fun j => match j with JString k => [k] | _ => [] end) items
      | _ => []
      end
  | _ => []
  end.




(** The last character of a text, if it has one. *)
Fixpoint last_char (s : string) : option ascii :=
  match s with
  | EmptyString => None
  | String c EmptyString => Some c
  | String _ rest => last_char rest
  end.

(** A text made of blanks only, as [str.strip] counts blanks. *)
Fixpoint all_space (s : string) : bool :=
  match s with
  | EmptyString => true
  | String c rest => py_isspace c && all_space rest
  end.

(** Printable ASCII: what [json.dumps] leaves in its output. *)
Definition printable_ascii (c : ascii) : bool :=
  let n := nat_of_ascii c in ((32 <=? n) && (n <=? 126))%nat.

Fixpoint all_printable (s : string) : bool :=
  match s with
  | EmptyString => true
  | String c rest => printable_ascii c && all_printable rest
  end.

(** * Properties *)

(** ** The handler, for every runtime *)

Section EngineFacts.

Context {R : Runtime}.



Lemma dict_set_fresh {A : Type} (k : string) (v : A) (d : list (string * A)) :
  dict_get k d = None -> dict_set k v d = (d ++ [(k, v)])%list.
Proof.
  induction d as [|[k' v'] d IH]; simpl; [reflexivity|].
  destruct (String.eqb k k'); [discriminate|].
  intros H. now rewrite IH.
Qed.

(** The seeds after a reset are those of a fresh server. *)
Lemma reset_namespace_initial (ns : namespace) :
  reset_namespace ns = initial_namespace.
Proof. reflexivity. Qed.

Lemma initial_namespace_only_seeds (x : string) :
  x <> "pd" -> x <> "__builtins__" -> dict_get x initial_namespace = None.
Proof.
  intros Hpd Hb. unfold initial_namespace. simpl.
  destruct (String.eqb x "__builtins__") eqn:E1;
    [apply String.eqb_eq in E1; tauto|].
  destruct (String.eqb x "pd") eqn:E2;
    [apply String.eqb_eq in E2; tauto|].
  reflexivity.
Qed.

Lemma captured_fields_no_result (output errors : string) :
  dict_get "result" (captured_fields output errors) = None.
Proof.
  unfold captured_fields.
  destruct (String.eqb output EmptyString), (String.eqb errors EmptyString);
    reflexivity.
Qed.

Lemma set_result (output errors : string) (v : pyval) :
  str_dict (dict_set "result" v (captured_fields output errors))
  = result_envelope output errors v.
Proof.
  unfold result_envelope.
  now rewrite dict_set_fresh by apply captured_fields_no_result.
Qed.

(** A mapping from one string to one string always has a JSON text. *)
Lemma json_dumps_dumps1 (key value : string) :
  json_dumps (str_dict [(key, VStr value)]) = inr (dumps1 key value).
Proof. reflexivity. Qed.

(** The generic envelope around a text always has a JSON text. *)
Lemma json_dumps_text_result (output errors r : string) :
  exists t, json_dumps (result_envelope output errors (VStr r)) = inr t.
Proof.
  unfold result_envelope, captured_fields.
  destruct (String.eqb output EmptyString), (String.eqb errors EmptyString);
    simpl; eexists; reflexivity.
Qed.

Lemma exception_caught (e : pyexc) :
  exc_isinstance e "Exception" = true ->
  except_Exception e = Return (execution_error e).
Proof. intros H. unfold except_Exception. now rewrite H. Qed.

Lemma SyntaxError_is_Exception (msg : string) :
  exc_isinstance (SyntaxError msg) "Exception" = true.
Proof. reflexivity. Qed.

(** *** Output capture *)

Lemma redirect_stdout_restores {A : Type} (target : stream) (body : effect A)
    (ns : namespace) (p : process) :
  sys_stdout (snd (redirect_stdout target body ns p)) = sys_stdout p.
Proof.
  unfold redirect_stdout.
  destruct (body ns (set_sys_stdout target p)) as [[o ns'] p']. reflexivity.
Qed.

Lemma captured_exec_channels (out_buf err_buf : nat) (code : json)
    (ns : namespace) (p : process) :
  sys_stdout (snd (captured_exec out_buf err_buf code ns p)) = sys_stdout p
  /\ sys_stderr (snd (captured_exec out_buf err_buf code ns p)) = sys_stderr p.
Proof.
  unfold captured_exec, redirect_stdout, redirect_stderr.
  destruct (exec_arg code ns _) as [[o ns'] p']. simpl. split; reflexivity.
Qed.

(** The statement run is [exec] in the capturing process, the slots set back
    afterwards. *)
Lemma statement_run_eq (self : PythonREPLServer) (code : json) (p : process) :
  statement_run self code p
  = match exec_arg code (global_namespace self) (capturing p) with
    | (o, ns, p') => (o, ns, restore p p')
    end.
Proof.
  unfold statement_run, captured_exec, redirect_stdout, redirect_stderr,
    capturing, restore.
  simpl.
  destruct (exec_arg code _ _) as [[o ns'] p']. reflexivity.
Qed.

Lemma getvalue_restore (id : nat) (p p' : process) :
  getvalue id (restore p p') = getvalue id p'.
Proof. reflexivity. Qed.

(** *** The execute branch, step by step *)

Lemma handle_execute (self : PythonREPLServer) (args : list (string * json))
    (p : process) :
  truthy (args_get "code" args) = true ->
  handle_call_tool self "execute_python" (Some args) p
  = execute_python self args p.
Proof.
  intros H. destruct args as [|a args]; [discriminate H | reflexivity].
Qed.

Lemma execute_python_run (self : PythonREPLServer) (args : list (string * json))
    (p : process) :
  truthy (args_get "code" args) = true ->
  truthy (args_get "reset" args) = false ->
  execute_python self args p
  = match try_execute (out_id p) (err_id p) (args_get "code" args)
                      (global_namespace self) (capture_start p) with
    | (Normal content, ns, p') => (Return content, mk_server ns, p')
    | (Raised e, ns, p') => (except_Exception e, mk_server ns, p')
    end.
Proof.
  intros Hc Hr. unfold execute_python. rewrite Hc, Hr. reflexivity.
Qed.

Lemma try_execute_raised (self : PythonREPLServer) (code : json) (p : process)
    (e : pyexc) (ns1 : namespace) (p1 : process) :
  statement_run self code p = (Raised e, ns1, p1) ->
  try_execute (out_id p) (err_id p) code (global_namespace self)
              (capture_start p)
  = (Raised e, ns1, p1).
Proof.
  unfold statement_run, try_execute. intros H. now rewrite H.
Qed.

Lemma try_execute_normal (self : PythonREPLServer) (src : string) (p : process)
    (u : unit) (ns1 : namespace) (p1 : process) (output errors : string) :
  statement_run self (JString src) p = (Normal u, ns1, p1) ->
  getvalue (out_id p) p1 = inr output ->
  getvalue (err_id p) p1 = inr errors ->
  try_execute (out_id p) (err_id p) (JString src) (global_namespace self)
              (capture_start p)
  = match py_eval (last_line src) ns1 p1 with
    | (Raised e, ns2, p2) => (Raised e, ns2, p2)
    | (Normal last_value, ns2, p2) =>
        match classify (captured_fields output errors) last_value with
        | inl e => (Raised e, ns2, p2)
        | inr content => (Normal content, ns2, p2)
        end
    end.
Proof.
  unfold statement_run, try_execute. intros H Ho He.
  rewrite H, Ho, He. reflexivity.
Qed.

(** The whole execute call once its statement run has ended normally and the
    buffers have been read. *)
Lemma execute_after_run (self : PythonREPLServer) (args : list (string * json))
    (src : string) (p : process) (u : unit) (ns1 : namespace) (p1 : process)
    (output errors : string) :
  args_get "code" args = JString src ->
  src <> EmptyString ->
  truthy (args_get "reset" args) = false ->
  statement_run self (JString src) p = (Normal u, ns1, p1) ->
  getvalue (out_id p) p1 = inr output ->
  getvalue (err_id p) p1 = inr errors ->
  handle_call_tool self "execute_python" (Some args) p
  = match py_eval (last_line src) ns1 p1 with
    | (Raised e, ns2, p2) => (except_Exception e, mk_server ns2, p2)
    | (Normal last_value, ns2, p2) =>
        match classify (captured_fields output errors) last_value with
        | inl e => (except_Exception e, mk_server ns2, p2)
        | inr content => (Return content, mk_server ns2, p2)
        end
    end.
Proof.
  intros Hcode Hne Hreset Hrun Ho He.
  assert (Ht : truthy (args_get "code" args) = true).
  { rewrite Hcode. simpl. destruct (String.eqb src EmptyString) eqn:E;
      [apply String.eqb_eq in E; contradiction | reflexivity]. }
  rewrite handle_execute by exact Ht.
  rewrite execute_python_run by assumption.
  rewrite Hcode.
  rewrite (try_execute_normal _ _ _ _ _ _ _ _ Hrun Ho He).
  destruct (py_eval (last_line src) ns1 p1) as [[[v|e] ns2] p2]; [|reflexivity].
  destruct (classify _ v); reflexivity.
Qed.

(** The whole execute call once its statement run has raised. *)
Lemma execute_after_raise (self : PythonREPLServer) (args : list (string * json))
    (p : process) (e : pyexc) (ns1 : namespace) (p1 : process) :
  truthy (args_get "code" args) = true ->
  truthy (args_get "reset" args) = false ->
  statement_run self (args_get "code" args) p = (Raised e, ns1, p1) ->
  handle_call_tool self "execute_python" (Some args) p
  = (except_Exception e, mk_server ns1, p1).
Proof.
  intros Ht Hreset Hrun.
  rewrite handle_execute by exact Ht.
  rewrite execute_python_run by assumption.
  now rewrite (try_execute_raised _ _ _ _ _ _ Hrun).
Qed.

(** *** JSON encoding fails with an ordinary exception only *)

Lemma json_key_error (k : pyval) (e : pyexc) :
  json_key k = inl e -> exc_isinstance e "Exception" = true.
Proof.
  destruct k as [| [|] | | | | | | |]; simpl; intros H;
    try discriminate; injection H as <-; reflexivity.
Qed.

Lemma json_dumps_error (v : pyval) :
  forall e, json_dumps v = inl e -> exc_isinstance e "Exception" = true.
Proof.
  induction v as [| b | z | s | l IH | l IH | d IH | c rows | t r]
    using pyval_nested_ind; intros e.
  - discriminate.
  - destruct b; discriminate.
  - discriminate.
  - discriminate.
  - revert e. induction IH as [|x rest Hx _ IHrest]; intros e; simpl.
    + discriminate.
    + simpl in IHrest. destruct (json_dumps x) as [e1|s1] eqn:E1.
      * intros H. injection H as <-. now apply Hx.
      * match goal with
        | |- context [match ?f rest with _ => _ end] =>
            destruct (f rest) as [e2|ss]
        end.
        -- intros H. injection H as <-. now apply IHrest.
        -- discriminate.
  - revert e. induction IH as [|x rest Hx _ IHrest]; intros e; simpl.
    + discriminate.
    + simpl in IHrest. destruct (json_dumps x) as [e1|s1] eqn:E1.
      * intros H. injection H as <-. now apply Hx.
      * match goal with
        | |- context [match ?f rest with _ => _ end] =>
            destruct (f rest) as [e2|ss]
        end.
        -- intros H. injection H as <-. now apply IHrest.
        -- discriminate.
  - revert e. induction IH as [|[k x] rest [_ Hx] _ IHrest]; intros e; simpl.
    + discriminate.
    + simpl in IHrest, Hx. destruct (json_key k) as [e0|ks] eqn:E0.
      * intros H. injection H as <-. now apply (json_key_error k).
      * destruct (json_dumps x) as [e1|s1] eqn:E1.
        -- intros H. injection H as <-. now apply Hx.
        -- match goal with
           | |- context [match ?f rest with _ => _ end] =>
               destruct (f rest) as [e2|ss]
           end.
           ++ intros H. injection H as <-. now apply IHrest.
           ++ discriminate.
  - simpl. intros H. injection H as <-. reflexivity.
  - simpl. intros H. injection H as <-. reflexivity.
Qed.

Lemma getvalue_error (id : nat) (p : process) (e : pyexc) :
  getvalue id p = inl e -> exc_isinstance e "Exception" = true.
Proof.
  unfold getvalue. destruct (nth_error (buffers p) id) as [[s|]|]; intros H;
    try discriminate; injection H as <-; reflexivity.
Qed.

Lemma run_stmts_app (done : list (statement expr other_stmt))
    (s : statement expr other_stmt) (rest : list (statement expr other_stmt))
    (ns : namespace) (p : process) (u : unit) (ns_k : namespace)
    (p_k : process) :
  run_stmts done ns p = (Normal u, ns_k, p_k) ->
  run_stmts (done ++ s :: rest)%list ns p
  = match run_stmt s ns_k p_k with
    | (Normal _, ns', p') => run_stmts rest ns' p'
    | (Raised ex, ns', p') => (Raised ex, ns', p')
    end.
Proof.
  revert ns p. induction done as [|d done IH]; intros ns p; simpl.
  - intros H. injection H as _ <- <-. reflexivity.
  - destruct (run_stmt d ns p) as [[[u'|ex] ns'] p']; [apply IH | discriminate].
Qed.

Lemma statement_run_compiled (self : PythonREPLServer) (src : string)
    (p : process) (ss : list (statement expr other_stmt)) :
  compile_exec src = inr ss ->
  statement_run self (JString src) p
  = match run_stmts ss (ensure_builtins (global_namespace self)) (capturing p) with
    | (o, ns, p') => (o, ns, restore p p')
    end.
Proof.
  intros Hc. rewrite statement_run_eq. simpl. unfold py_exec. now rewrite Hc.
Qed.

Lemma nonempty_truthy (src : string) :
  src <> EmptyString -> truthy (JString src) = true.
Proof.
  intros Hne. simpl. destruct (String.eqb src EmptyString) eqn:E;
    [apply String.eqb_eq in E; contradiction | reflexivity].
Qed.

(** *** The claims about the execute branch *)

(** C8.  For every execute call that runs code, the process leaves the
    capture scope with [sys.stdout] and [sys.stderr] holding the streams they
    held when the call came in, however the statement run ended; and when the
    run ended with an exception, caught ([Exception]) or not, that process is
    the one the call ends in. *)
Theorem channels_restored_after_run (self : PythonREPLServer)
    (args : list (string * json)) (p : process) (o : outcome unit)
    (ns1 : namespace) (p1 : process) :
  truthy (args_get "code" args) = true ->
  truthy (args_get "reset" args) = false ->
  statement_run self (args_get "code" args) p = (o, ns1, p1) ->
  sys_stdout p1 = sys_stdout p
  /\ sys_stderr p1 = sys_stderr p
  /\ match o with
     | Normal _ => True
     | Raised e =>
         handle_call_tool self "execute_python" (Some args) p
         = ((if exc_isinstance e "Exception"
             then Return (execution_error e) else Raise e),
            mk_server ns1, p1)
     end.
Proof.
  intros Ht Hr Hrun.
  assert (Hp1 : p1 = snd (statement_run self (args_get "code" args) p))
    by now rewrite Hrun.
  unfold statement_run in Hp1.
  destruct (captured_exec_channels (out_id p) (err_id p) (args_get "code" args)
              (global_namespace self) (capture_start p)) as [Hout Herr].
  rewrite <- Hp1 in Hout, Herr.
  repeat split; try assumption.
  destruct o as [u|e]; [exact I|].
  now rewrite (execute_after_raise _ _ _ _ _ _ Ht Hr Hrun).
Qed.

(** The error envelope of the execute branch is the JSON text of the
    mapping with the single key error, whose value is the heading line
    followed by the formatted trace. *)
Lemma execution_error_envelope (e : pyexc) :
  exists t,
    json_dumps
      (str_dict [("error",
                  VStr ("Error executing code:" ++ str1 LF ++ format_exc e))])
    = inr t
    /\ execution_error e = [mk_content "text" t].
Proof. eexists. split; reflexivity. Qed.

(** C1.  For every execute request whose statement run succeeds and whose
    last non-empty line does not compile as an expression, the call returns
    one text block, the JSON text of the mapping with the single key error
    whose value is the heading line followed by the formatted trace of an
    exception, the bindings of the run kept; once the captured text has been
    read, that exception is the syntax error of the trailing
    re-evaluation. *)
Theorem trailing_non_expression_is_error (self : PythonREPLServer)
    (args : list (string * json)) (src : string) (p : process) (u : unit)
    (ns1 : namespace) (p1 : process) (msg : string) :
  args_get "code" args = JString src ->
  src <> EmptyString ->
  truthy (args_get "reset" args) = false ->
  statement_run self (JString src) p = (Normal u, ns1, p1) ->
  compile_eval (last_line src) = inl msg ->
  (exists e ns2 t,
      exc_isinstance e "Exception" = true
      /\ json_dumps
           (str_dict [("error",
                       VStr ("Error executing code:" ++ str1 LF
                             ++ format_exc e))])
         = inr t
      /\ handle_call_tool self "execute_python" (Some args) p
         = (Return [mk_content "text" t], mk_server ns2, p1))
  /\ (forall output errors,
         getvalue (out_id p) p1 = inr output ->
         getvalue (err_id p) p1 = inr errors ->
         py_eval (last_line src) ns1 p1
         = (Raised (SyntaxError msg), ensure_builtins ns1, p1)
         /\ exists t,
              json_dumps
                (str_dict [("error",
                            VStr ("Error executing code:" ++ str1 LF
                                  ++ format_exc (SyntaxError msg)))])
              = inr t
              /\ handle_call_tool self "execute_python" (Some args) p
                 = (Return [mk_content "text" t],
                    mk_server (ensure_builtins ns1), p1)).
Proof.
  intros Hcode Hne Hreset Hrun Hexpr.
  assert (Heval : py_eval (last_line src) ns1 p1
                  = (Raised (SyntaxError msg), ensure_builtins ns1, p1)).
  { unfold py_eval. now rewrite Hexpr. }
  assert (Hread : forall output errors,
             getvalue (out_id p) p1 = inr output ->
             getvalue (err_id p) p1 = inr errors ->
             handle_call_tool self "execute_python" (Some args) p
             = (Return (execution_error (SyntaxError msg)),
                mk_server (ensure_builtins ns1), p1)).
  { intros output errors Ho He.
    rewrite (execute_after_run _ _ _ _ _ _ _ _ _ Hcode Hne Hreset Hrun Ho He).
    rewrite Heval. reflexivity. }
  assert (Hcaught : forall e ns2,
             exc_isinstance e "Exception" = true ->
             handle_call_tool self "execute_python" (Some args) p
             = (Return (execution_error e), mk_server ns2, p1) ->
             exists e' ns' t,
               exc_isinstance e' "Exception" = true
               /\ json_dumps
                    (str_dict [("error",
                                VStr ("Error executing code:" ++ str1 LF
                                      ++ format_exc e'))])
                  = inr t
               /\ handle_call_tool self "execute_python" (Some args) p
                  = (Return [mk_content "text" t], mk_server ns', p1)).
  { intros e ns2 He Hcall.
    destruct (execution_error_envelope e) as [t [Ht Henv]].
    exists e, ns2, t. rewrite Hcall, Henv. now repeat split. }
  split.
  - assert (Ht : truthy (args_get "code" args) = true)
      by (rewrite Hcode; now apply nonempty_truthy).
    destruct (getvalue (out_id p) p1) as [e1|output] eqn:Ho.
    + apply (Hcaught e1 ns1); [now apply (getvalue_error _ _ _ Ho)|].
      rewrite handle_execute, execute_python_run by assumption.
      rewrite Hcode. unfold try_execute. unfold statement_run in Hrun.
      rewrite Hrun, Ho.
      now rewrite exception_caught by apply (getvalue_error _ _ _ Ho).
    + destruct (getvalue (err_id p) p1) as [e2|errors] eqn:He.
      * apply (Hcaught e2 ns1); [now apply (getvalue_error _ _ _ He)|].
        rewrite handle_execute, execute_python_run by assumption.
        rewrite Hcode. unfold try_execute. unfold statement_run in Hrun.
        rewrite Hrun, Ho, He.
        now rewrite exception_caught by apply (getvalue_error _ _ _ He).
      * apply (Hcaught (SyntaxError msg) (ensure_builtins ns1));
          [reflexivity | now apply (Hread output errors)].
  - intros output errors Ho He. split; [exact Heval|].
    destruct (execution_error_envelope (SyntaxError msg)) as [t [Ht Henv]].
    exists t. split; [exact Ht|].
    rewrite (Hread output errors Ho He). now rewrite Henv.
Qed.

(** C10.  A call that fails does not roll the namespace back.  When the
    statement run raises an exception at some statement, the namespace the
    server keeps is the one the completed statements built, as that statement
    left it; when the trailing re-evaluation raises after a successful run, it
    is the namespace of the run, as the re-evaluation left it.  Either way the
    error envelope is returned and the next call starts from that
    namespace. *)
Theorem failed_call_keeps_bindings (self : PythonREPLServer)
    (args : list (string * json)) (src : string) (p : process) :
  args_get "code" args = JString src ->
  src <> EmptyString ->
  truthy (args_get "reset" args) = false ->
  (forall done s rest u ns_k p_k e ns' p',
      compile_exec src = inr (done ++ s :: rest)%list ->
      run_stmts done (ensure_builtins (global_namespace self)) (capturing p)
      = (Normal u, ns_k, p_k) ->
      run_stmt s ns_k p_k = (Raised e, ns', p') ->
      exc_isinstance e "Exception" = true ->
      handle_call_tool self "execute_python" (Some args) p
      = (Return (execution_error e), mk_server ns', restore p p'))
  /\ (forall u ns1 p1 output errors e ns2 p2,
         statement_run self (JString src) p = (Normal u, ns1, p1) ->
         getvalue (out_id p) p1 = inr output ->
         getvalue (err_id p) p1 = inr errors ->
         py_eval (last_line src) ns1 p1 = (Raised e, ns2, p2) ->
         exc_isinstance e "Exception" = true ->
         handle_call_tool self "execute_python" (Some args) p
         = (Return (execution_error e), mk_server ns2, p2)).
Proof.
  intros Hcode Hne Hreset. split.
  - intros done s rest u ns_k p_k e ns' p' Hc Hdone Hs He.
    assert (Ht : truthy (args_get "code" args) = true)
      by (rewrite Hcode; now apply nonempty_truthy).
    assert (Hrun : statement_run self (args_get "code" args) p
                   = (Raised e, ns', restore p p')).
    { rewrite Hcode, (statement_run_compiled _ _ _ _ Hc).
      rewrite (run_stmts_app _ s rest _ _ _ _ _ Hdone), Hs. reflexivity. }
    rewrite (execute_after_raise _ _ _ _ _ _ Ht Hreset Hrun).
    now rewrite exception_caught.
  - intros u ns1 p1 output errors e ns2 p2 Hrun Ho He Heval Hexc.
    rewrite (execute_after_run _ _ _ _ _ _ _ _ _ Hcode Hne Hreset Hrun Ho He).
    rewrite Heval. now rewrite exception_caught.
Qed.

Lemma classify_structured (output errors : string) (v : pyval) :
  is_structured v = true ->
  classify (captured_fields output errors) v
  = match json_dumps (result_envelope output errors v) with
    | inl e => inl e
    | inr t => inr [text_content t]
    end.
Proof.
  destruct v; try discriminate; intros _; unfold classify;
    now rewrite set_result.
Qed.

Lemma classify_text (output errors : string) (v : pyval) :
  is_structured v = false ->
  is_table v = false ->
  classify (captured_fields output errors) v
  = match repr v with
    | inl e => inl e
    | inr r =>
        match json_dumps (result_envelope output errors (VStr r)) with
        | inl e => inl e
        | inr t => inr [text_content t]
        end
    end.
Proof.
  destruct v; try discriminate; intros _ _; unfold classify;
    destruct (repr _); try reflexivity; now rewrite set_result.
Qed.

(** C4 (amended).  When the trailing expression evaluates to a table with
    its rows and its named columns, the mapping that is encoded has the four
    keys type, data (one mapping from column label to cell per row, in row
    order), columns and shape (row count, column count), and nothing of the
    captured output or errors.  When that mapping has a JSON form its text is
    the whole response; when a cell has none, the failure of the encoder is
    caught and the call returns the error envelope. *)
Theorem dataframe_envelope (self : PythonREPLServer)
    (args : list (string * json)) (src : string) (p : process) (u : unit)
    (ns1 : namespace) (p1 : process) (output errors : string)
    (columns : list string) (rows : list (list pyval))
    (ns2 : namespace) (p2 : process) :
  args_get "code" args = JString src ->
  src <> EmptyString ->
  truthy (args_get "reset" args) = false ->
  statement_run self (JString src) p = (Normal u, ns1, p1) ->
  getvalue (out_id p) p1 = inr output ->
  getvalue (err_id p) p1 = inr errors ->
  py_eval (last_line src) ns1 p1 = (Normal (VDataFrame columns rows), ns2, p2) ->
  let envelope :=
    str_dict
      [("type", VStr "dataframe");
       ("data",
        VList (map (fun row => str_dict (dict_of_pairs (combine columns row)))
                   rows));
       ("columns", VList (map VStr columns));
       ("shape", VList [VInt (Z.of_nat (List.length rows));
                        VInt (Z.of_nat (List.length columns))])] in
  handle_call_tool self "execute_python" (Some args) p
  = match json_dumps envelope with
    | inr t => (Return [text_content t], mk_server ns2, p2)
    | inl e => (Return (execution_error e), mk_server ns2, p2)
    end.
Proof.
  intros Hcode Hne Hreset Hrun Ho He Heval envelope.
  rewrite (execute_after_run _ _ _ _ _ _ _ _ _ Hcode Hne Hreset Hrun Ho He).
  rewrite Heval. unfold classify.
  change (df_json columns rows) with envelope.
  destruct (json_dumps envelope) as [e|t] eqn:E; [|reflexivity].
  now rewrite exception_caught by apply (json_dumps_error _ _ E).
Qed.

(** C7 (amended).  For every final value that is not a table: a list or a
    mapping is put as it is under the result key, after the captured output
    and errors, and the text of that mapping is the response when it has a
    JSON form, the error envelope of the encoder when it has none; any other
    value is put under the result key as its [repr], which always encodes,
    unless the [repr] of the object itself raises. *)
Theorem generic_result_classification (self : PythonREPLServer)
    (args : list (string * json)) (src : string) (p : process) (u : unit)
    (ns1 : namespace) (p1 : process) (output errors : string)
    (value : pyval) (ns2 : namespace) (p2 : process) :
  args_get "code" args = JString src ->
  src <> EmptyString ->
  truthy (args_get "reset" args) = false ->
  statement_run self (JString src) p = (Normal u, ns1, p1) ->
  getvalue (out_id p) p1 = inr output ->
  getvalue (err_id p) p1 = inr errors ->
  py_eval (last_line src) ns1 p1 = (Normal value, ns2, p2) ->
  (forall columns rows, value <> VDataFrame columns rows) ->
  let call := handle_call_tool self "execute_python" (Some args) p in
  match value with
  | VList _ | VDict _ =>
      match json_dumps (result_envelope output errors value) with
      | inr t => call = (Return [text_content t], mk_server ns2, p2)
      | inl e => call = (Return (execution_error e), mk_server ns2, p2)
      end
  | _ =>
      match repr value with
      | inr r =>
          exists t,
            json_dumps (result_envelope output errors (VStr r)) = inr t
            /\ call = (Return [text_content t], mk_server ns2, p2)
      | inl e => call = (except_Exception e, mk_server ns2, p2)
      end
  end.
Proof.
  intros Hcode Hne Hreset Hrun Ho He Heval Hnot call. unfold call.
  rewrite (execute_after_run _ _ _ _ _ _ _ _ _ Hcode Hne Hreset Hrun Ho He).
  rewrite Heval.
  destruct value as [| b | z | s | l | l | d | c rows | t r];
    try (exfalso; now apply (Hnot c rows));
    try (rewrite classify_structured by reflexivity;
         destruct (json_dumps (result_envelope output errors _)) as [e|t'] eqn:E;
         [now rewrite exception_caught by apply (json_dumps_error _ _ E)
         | reflexivity]);
    (rewrite classify_text by reflexivity;
     destruct (repr _) as [e|r'] eqn:E; [reflexivity|];
     destruct (json_dumps_text_result output errors r') as [t' Ht'];
     exists t'; split; [exact Ht' | now rewrite Ht']).
Qed.


(** C3 (amended).  For every execute request with a true reset flag: when
    the code argument is present and non-empty the call stops at once, the
    namespace holds the two seeds and nothing else, the confirmation text is
    the sole content and the process is untouched, whatever the code is; when
    the code argument is empty or absent the call raises the missing-parameter
    error and the namespace is left as it was. *)
Theorem reset_short_circuits (self : PythonREPLServer)
    (args : list (string * json)) (p : process) :
  truthy (args_get "reset" args) = true ->
  handle_call_tool self "execute_python" (Some args) p
  = if truthy (args_get "code" args)
    then (Return [text_content reset_message], mk_server initial_namespace, p)
    else (Raise (ValueError "Missing code parameter"), self, p).
Proof.
  intros Hreset.
  destruct args as [|a args]; [discriminate Hreset|].
  change (handle_call_tool self "execute_python" (Some (a :: args)) p)
    with (execute_python self (a :: args) p).
  unfold execute_python. rewrite Hreset.
  destruct (truthy (args_get "code" (a :: args))); reflexivity.
Qed.

(** *** The install branch *)

Lemma allow_listed_match_tail (s : string) :
  forallb in_name_class (list_ascii_of_string s) = true ->
  match_name_tail s = true.
Proof.
  induction s as [|c s IH]; simpl; [reflexivity|].
  destruct (in_name_class c); [exact IH | discriminate].
Qed.

Lemma match_name_tail_spec (s : string) :
  match_name_tail s = true
  <-> forallb in_name_class (list_ascii_of_string s) = true
      \/ exists t, s = t ++ str1 LF
                   /\ forallb in_name_class (list_ascii_of_string t) = true.
Proof.
  induction s as [|c s IH]; simpl.
  - split; [intros _; left; reflexivity | reflexivity].
  - destruct (in_name_class c) eqn:Hc; simpl.
    + rewrite IH. split.
      * intros [H | [t [Heq Ht]]]; [left; exact H|].
        right. exists (String c t). split; [simpl; now rewrite Heq|].
        simpl. now rewrite Hc.
      * intros [H | [t [Heq Ht]]]; [left; exact H|].
        destruct t as [|c0 t]; simpl in Heq; injection Heq as H1 H2.
        -- subst c. vm_compute in Hc. discriminate Hc.
        -- subst c0. right. exists t. split; [exact H2|].
           simpl in Ht. now rewrite Hc in Ht.
    + split.
      * intros H. apply andb_prop in H as [H1 H2].
        apply Ascii.eqb_eq in H1. apply String.eqb_eq in H2. subst c s.
        right. exists EmptyString. split; reflexivity.
      * intros [H | [t [Heq Ht]]]; [discriminate H|].
        destruct t as [|c0 t]; simpl in Heq; injection Heq as H1 H2.
        -- subst c s. reflexivity.
        -- subst c0. simpl in Ht. rewrite Hc in Ht. discriminate Ht.
Qed.

(** What the pattern accepts: the allow-listed names, and an allow-listed
    name followed by one line feed. *)
Lemma re_match_package_spec (s : string) :
  re_match_package s = true
  <-> allow_listed s = true
      \/ exists t, s = t ++ str1 LF /\ allow_listed t = true.
Proof.
  destruct s as [|c s]; simpl.
  - split; [discriminate|].
    intros [H | [t [H _]]]; [discriminate H|].
    destruct t; discriminate H.
  - destruct (is_alnum c) eqn:Hc; simpl.
    + rewrite match_name_tail_spec. split.
      * intros [H | [t [Heq Ht]]]; [left; exact H|].
        right. exists (String c t). split; [simpl; now rewrite Heq|].
        simpl. now rewrite Hc.
      * intros [H | [t [Heq Ht]]]; [left; exact H|].
        destruct t as [|c0 t]; [discriminate Ht|].
        simpl in Heq. injection Heq as H1 H2. subst c0.
        right. exists t. split; [exact H2|].
        simpl in Ht. now rewrite Hc in Ht.
    + split; [discriminate|].
      intros [H | [t [Heq Ht]]]; [discriminate H|].
      destruct t as [|c0 t]; [discriminate Ht|].
      simpl in Heq. injection Heq as H1 H2. subst c0.
      simpl in Ht. rewrite Hc in Ht. discriminate Ht.
Qed.

Lemma install_dispatch (self : PythonREPLServer) (args : list (string * json))
    (p : process) :
  truthy (args_get "package" args) = true ->
  handle_call_tool self "install_package" (Some args) p
  = install_package self args p.
Proof.
  intros H. destruct args as [|a args]; [discriminate H | reflexivity].
Qed.

(** C2 (amended).  For every install request whose package string the
    pattern refuses, the fixed bootstrap command, which does not carry the
    package string, is the only command run: the call ends in the process the
    bootstrap left, the server untouched; it returns the invalid-name error
    envelope when the bootstrap completed, the bootstrap error envelope when
    the bootstrap exited with a failure, and raises when the bootstrap could
    not be started.  A package string the pattern accepts goes on, after a
    completed bootstrap, to the install command. *)
Theorem invalid_package_rejected_after_bootstrap (self : PythonREPLServer)
    (args : list (string * json)) (pkg : string) (p : process) :
  args_get "package" args = JString pkg ->
  pkg <> EmptyString ->
  let call := handle_call_tool self "install_package" (Some args) p in
  let boot := subprocess_run bootstrap_cmd p in
  (re_match_package pkg = false ->
   ~ In pkg bootstrap_cmd
   /\ snd call = snd boot
   /\ snd (fst call) = self
   /\ fst (fst call)
      = match fst boot with
        | CompletedProcess _ _ _ => Return (invalid_package pkg)
        | CalledProcessError _ _ err =>
            Return [text_content (dumps1 "error" ("Failed to install pip: " ++ err))]
        | OtherError e => Raise e
        end)
  /\ (re_match_package pkg = true ->
      forall rc out err, fst boot = CompletedProcess rc out err ->
      call = install_validated self pkg (snd boot)).
Proof.
  intros Hpkg Hne call boot.
  assert (Ht : truthy (args_get "package" args) = true)
    by (rewrite Hpkg; now apply nonempty_truthy).
  unfold call. rewrite (install_dispatch _ _ _ Ht).
  unfold install_package. rewrite Ht, Hpkg. simpl negb. cbv iota.
  fold boot. split.
  - intros Hre. split.
    + intros Hin. simpl in Hin.
      destruct Hin as [H | [H | [H | [H | []]]]]; subst pkg; discriminate Hre.
    + rewrite Hre. simpl negb. cbv iota.
      destruct boot as [[rc out err | rc out err | e] p1]; simpl; auto.
  - intros Hre rc out err Hboot. rewrite Hre. simpl negb. cbv iota.
    destruct boot as [[rc' out' err' | rc' out' err' | e] p1]; simpl in *;
      try discriminate Hboot; reflexivity.
Qed.

End EngineFacts.

(** ** The handler on MiniPy *)

Section MiniPyFacts.

#[local] Existing Instance MiniPy.runtime.



(** The two buffers of a call are empty as long as nothing was written. *)
Lemma fresh_buffers (p : process) :
  getvalue (out_id p) (restore p (capturing p)) = inr EmptyString
  /\ getvalue (err_id p) (restore p (capturing p)) = inr EmptyString.
Proof.
  unfold getvalue, out_id, err_id, restore, capturing, capture_start. simpl.
  split.
  - rewrite <- app_assoc. rewrite nth_error_app2 by apply Nat.le_refl.
    now rewrite Nat.sub_diag.
  - rewrite nth_error_app2 by apply Nat.le_refl.
    now rewrite Nat.sub_diag.
Qed.





(** *** The claims at concrete requests *)

(** C1 at the request [x = 5]: the assignment runs, the binding is kept, and
    the answer is the error envelope of the syntax error, here spelled out
    character by character. *)
Lemma trailing_non_expression_witness :
  MiniPy.execute MiniPy.fresh_server "x = 5" MiniPy.fresh_process
  = (Return
       [mk_content "text"
          ("{" ++ str1 DQUOTE ++ "error" ++ str1 DQUOTE ++ ": " ++ str1 DQUOTE
           ++ "Error executing code:\nTraceback (most recent call last):\nSyntaxError: invalid syntax\n"
           ++ str1 DQUOTE ++ "}")],
     MiniPy.server_with [("x", VInt 5)],
     MiniPy.after_call EmptyString EmptyString).
Proof.
  destruct (proj2 (trailing_non_expression_is_error
                     MiniPy.fresh_server [("code", JString "x = 5")]
                     "x = 5" MiniPy.fresh_process tt
                     (global_namespace (MiniPy.server_with [("x", VInt 5)]))
                     (MiniPy.after_call EmptyString EmptyString)
                     "invalid syntax" eq_refl ltac:(discriminate) eq_refl
                     eq_refl eq_refl)
                  EmptyString EmptyString eq_refl eq_refl)
    as [_ [t [Ht Hcall]]].
  injection Ht as <-. exact Hcall.
Defined.

(** C8 at the request [1 // 0]: the run raises, the exception is caught, and
    the process the call ends in has both slots back on the streams of the
    process. *)
Lemma channels_restored_witness :
  sys_stdout (MiniPy.after_call EmptyString EmptyString) = Stdout
  /\ sys_stderr (MiniPy.after_call EmptyString EmptyString) = Stderr
  /\ MiniPy.execute MiniPy.fresh_server "1 // 0" MiniPy.fresh_process
     = (Return (execution_error
                  (ZeroDivisionError "integer division or modulo by zero")),
        MiniPy.fresh_server,
        MiniPy.after_call EmptyString EmptyString).
Proof.
  refine (channels_restored_after_run
            MiniPy.fresh_server [("code", JString "1 // 0")]
            MiniPy.fresh_process
            (Raised (ZeroDivisionError "integer division or modulo by zero"))
            (global_namespace MiniPy.fresh_server)
            (MiniPy.after_call EmptyString EmptyString) _ _ _);
    reflexivity.
Defined.

(** C10 at two requests: [x = 5] then [1 // 0] on the next line, whose run
    fails at its second statement, and [x = 5] alone, whose re-evaluation
    fails.  Both answer with an error envelope and both keep [x]. *)
Lemma failed_call_keeps_bindings_witness :
  MiniPy.execute MiniPy.fresh_server (MiniPy.lines ["x = 5"; "1 // 0"])
                 MiniPy.fresh_process
  = (Return (execution_error
               (ZeroDivisionError "integer division or modulo by zero")),
     MiniPy.server_with [("x", VInt 5)],
     MiniPy.after_call EmptyString EmptyString)
  /\ MiniPy.execute MiniPy.fresh_server "x = 5" MiniPy.fresh_process
     = (Return (execution_error (SyntaxError "invalid syntax")),
        MiniPy.server_with [("x", VInt 5)],
        MiniPy.after_call EmptyString EmptyString).
Proof.
  split.
  - refine (proj1 (failed_call_keeps_bindings
                     MiniPy.fresh_server
                     [("code", JString (MiniPy.lines ["x = 5"; "1 // 0"]))]
                     (MiniPy.lines ["x = 5"; "1 // 0"])
                     MiniPy.fresh_process _ _ _)
                  [OtherStmt (MiniPy.SAssign "x" (MiniPy.EInt 5))]
                  (ExprStmt (MiniPy.EBin MiniPy.FloorDiv (MiniPy.EInt 1)
                                         (MiniPy.EInt 0)))
                  [] tt
                  (global_namespace (MiniPy.server_with [("x", VInt 5)]))
                  (capturing MiniPy.fresh_process)
                  (ZeroDivisionError "integer division or modulo by zero")
                  (global_namespace (MiniPy.server_with [("x", VInt 5)]))
                  (capturing MiniPy.fresh_process) _ _ _ _);
      try reflexivity; discriminate.
  - refine (proj2 (failed_call_keeps_bindings
                     MiniPy.fresh_server [("code", JString "x = 5")] "x = 5"
                     MiniPy.fresh_process _ _ _)
                  tt (global_namespace (MiniPy.server_with [("x", VInt 5)]))
                  (MiniPy.after_call EmptyString EmptyString)
                  EmptyString EmptyString (SyntaxError "invalid syntax")
                  (global_namespace (MiniPy.server_with [("x", VInt 5)]))
                  (MiniPy.after_call EmptyString EmptyString) _ _ _ _ _);
      try reflexivity; discriminate.
Defined.

(** After the failed call above, the binding it made is read by the next. *)
Example binding_of_failed_call_is_visible :
  fst (fst (MiniPy.execute (MiniPy.server_with [("x", VInt 5)]) "x"
                           (MiniPy.after_call EmptyString EmptyString)))
  = Return [text_content (dumps1 "result" "5")].
Proof. reflexivity. Qed.

(** C4 at a server where [df] is bound to a two by two table of integers:
    the request [df] answers with the text of the table mapping. *)
Lemma dataframe_envelope_witness :
  exists t,
    json_dumps
      (str_dict
         [("type", VStr "dataframe");
          ("data", VList [str_dict [("a", VInt 1); ("b", VInt 2)];
                          str_dict [("a", VInt 3); ("b", VInt 4)]]);
          ("columns", VList [VStr "a"; VStr "b"]);
          ("shape", VList [VInt 2; VInt 2])]) = inr t
    /\ MiniPy.execute (MiniPy.server_with [("df", MiniPy.small_table)]) "df"
                      MiniPy.fresh_process
       = (Return [text_content t],
          MiniPy.server_with [("df", MiniPy.small_table)],
          MiniPy.after_call EmptyString EmptyString).
Proof.
  eexists. split; [reflexivity|].
  refine (dataframe_envelope
            (MiniPy.server_with [("df", MiniPy.small_table)])
            [("code", JString "df")] "df" MiniPy.fresh_process tt
            (global_namespace (MiniPy.server_with [("df", MiniPy.small_table)]))
            (MiniPy.after_call EmptyString EmptyString)
            EmptyString EmptyString ["a"; "b"]
            [[VInt 1; VInt 2]; [VInt 3; VInt 4]]
            (global_namespace (MiniPy.server_with [("df", MiniPy.small_table)]))
            (MiniPy.after_call EmptyString EmptyString) _ _ _ _ _ _ _);
    try reflexivity; discriminate.
Defined.

(** C4 as stated fails: at a server where [df] is bound to a table of one
    row and one column whose cell is a timestamp, the request [df] evaluates
    to that table and the answer is the error envelope of the encoder, not a
    table envelope. *)
Lemma dataframe_envelope_counterexample :
  py_eval (last_line "df")
          (global_namespace (MiniPy.server_with [("df", MiniPy.dated_table)]))
          (MiniPy.after_call EmptyString EmptyString)
  = (Normal MiniPy.dated_table,
     global_namespace (MiniPy.server_with [("df", MiniPy.dated_table)]),
     MiniPy.after_call EmptyString EmptyString)
  /\ fst (fst (MiniPy.execute (MiniPy.server_with [("df", MiniPy.dated_table)])
                              "df" MiniPy.fresh_process))
     = Return (execution_error
                 (TypeError "Object of type Timestamp is not JSON serializable"))
  /\ forall t,
       json_dumps (df_json ["t"] [[VObject "Timestamp"
                                     (inr ("Timestamp(" ++ str1 SQUOTE
                                           ++ "2020-01-01 00:00:00"
                                           ++ str1 SQUOTE ++ ")"))]])
       <> inr t.
Proof.
  split; [reflexivity|]. split; [reflexivity|]. intros t H. discriminate H.
Qed.

(** C7 at the request [[1, 2]]: the list is kept as a list under the result
    key. *)
Lemma generic_result_classification_witness :
  exists t,
    json_dumps (str_dict [("result", VList [VInt 1; VInt 2])]) = inr t
    /\ MiniPy.execute MiniPy.fresh_server "[1, 2]" MiniPy.fresh_process
       = (Return [text_content t], MiniPy.fresh_server,
          MiniPy.after_call EmptyString EmptyString).
Proof.
  eexists. split; [reflexivity|].
  refine (generic_result_classification
            MiniPy.fresh_server [("code", JString "[1, 2]")] "[1, 2]"
            MiniPy.fresh_process tt (global_namespace MiniPy.fresh_server)
            (MiniPy.after_call EmptyString EmptyString)
            EmptyString EmptyString (VList [VInt 1; VInt 2])
            (global_namespace MiniPy.fresh_server)
            (MiniPy.after_call EmptyString EmptyString) _ _ _ _ _ _ _ _);
    try reflexivity; discriminate.
Defined.

(** C7 as stated fails: the request [[pd]] evaluates to a list, which is not
    a table, and the answer is the error envelope of the encoder: nothing is
    kept under a result key. *)
Lemma generic_result_classification_counterexample :
  py_eval (last_line "[pd]") (global_namespace MiniPy.fresh_server)
          (MiniPy.after_call EmptyString EmptyString)
  = (Normal (VList [MiniPy.pandas_module]),
     global_namespace MiniPy.fresh_server,
     MiniPy.after_call EmptyString EmptyString)
  /\ fst (fst (MiniPy.execute MiniPy.fresh_server "[pd]" MiniPy.fresh_process))
     = Return (execution_error
                 (TypeError "Object of type module is not JSON serializable"))
  /\ forall t,
       json_dumps (result_envelope EmptyString EmptyString
                                   (VList [MiniPy.pandas_module]))
       <> inr t.
Proof.
  split; [reflexivity|]. split; [reflexivity|]. intros t H. discriminate H.
Qed.



(** C3 at a reset request that carries code: the namespace is back to its
    seeds and the code was not run. *)
Lemma reset_short_circuits_witness :
  handle_call_tool (MiniPy.server_with [("x", VInt 5)]) "execute_python"
                   (MiniPy.reset_request "print(x)") MiniPy.fresh_process
  = (Return [text_content reset_message], MiniPy.fresh_server,
     MiniPy.fresh_process).
Proof.
  refine (reset_short_circuits (MiniPy.server_with [("x", VInt 5)])
            [("code", JString "print(x)"); ("reset", JBool true)]
            MiniPy.fresh_process _).
  reflexivity.
Defined.

(** C3 as stated fails: a reset request without code raises, returns no
    confirmation and leaves the binding of [x] in the namespace. *)
Lemma reset_short_circuits_counterexample :
  handle_call_tool (MiniPy.server_with [("x", VInt 5)]) "execute_python"
                   (Some [("reset", JBool true)]) MiniPy.fresh_process
  = (Raise (ValueError "Missing code parameter"),
     MiniPy.server_with [("x", VInt 5)], MiniPy.fresh_process)
  /\ handle_call_tool (MiniPy.server_with [("x", VInt 5)]) "execute_python"
                      (Some [("reset", JBool true)]) MiniPy.fresh_process
     <> (Return [text_content reset_message], MiniPy.fresh_server,
         MiniPy.fresh_process).
Proof. split; [reflexivity | discriminate]. Qed.

(** C2 at the refused name [x; rm -rf] and at the accepted name
    [ok-pkg.1]: the first call ends after the bootstrap with the invalid-name
    envelope, the second goes on to the install command. *)
Lemma invalid_package_rejected_witness :
  (~ In "x; rm -rf" bootstrap_cmd
   /\ handle_call_tool MiniPy.fresh_server "install_package"
                       (MiniPy.install_request "x; rm -rf") MiniPy.fresh_process
      = (Return (invalid_package "x; rm -rf"), MiniPy.fresh_server,
         snd (subprocess_run bootstrap_cmd MiniPy.fresh_process)))
  /\ handle_call_tool MiniPy.fresh_server "install_package"
                      (MiniPy.install_request "ok-pkg.1") MiniPy.fresh_process
     = install_validated MiniPy.fresh_server "ok-pkg.1"
         (snd (subprocess_run bootstrap_cmd MiniPy.fresh_process)).
Proof.
  split.
  - destruct (proj1 (invalid_package_rejected_after_bootstrap
                       MiniPy.fresh_server [("package", JString "x; rm -rf")]
                       "x; rm -rf" MiniPy.fresh_process eq_refl
                       ltac:(discriminate)) eq_refl)
      as [Hnot _].
    split; [exact Hnot | reflexivity].
  - refine (proj2 (invalid_package_rejected_after_bootstrap
                     MiniPy.fresh_server [("package", JString "ok-pkg.1")]
                     "ok-pkg.1" MiniPy.fresh_process _ _) _
                  0%Z EmptyString EmptyString _);
      try reflexivity; discriminate.
Defined.

(** C2 as stated fails: when the request for [x; rm -rf] is refused, an
    external command has already been run. *)
Lemma invalid_package_rejected_counterexample :
  fst (fst (handle_call_tool MiniPy.fresh_server "install_package"
              (MiniPy.install_request "x; rm -rf") MiniPy.fresh_process))
  = Return (invalid_package "x; rm -rf")
  /\ spawned (snd (handle_call_tool MiniPy.fresh_server "install_package"
                     (MiniPy.install_request "x; rm -rf") MiniPy.fresh_process))
     = [["uv"; "pip"; "install"; "pip"]]
  /\ spawned MiniPy.fresh_process = [].
Proof. repeat split. Qed.

(** The pattern also accepts an allow-listed name followed by a line feed,
    which the allow-list of the data model does not. *)
Example trailing_line_feed_accepted :
  re_match_package ("pkg" ++ str1 LF) = true
  /\ allow_listed ("pkg" ++ str1 LF) = false.
Proof. split; reflexivity. Qed.

Lemma compile_name_nonempty (code x : string) :
  MiniPy.compile_exec code = inr [ExprStmt (MiniPy.EName x)] ->
  code <> EmptyString.
Proof. intros H ->. discriminate H. Qed.

(** C6 (amended).  After a reset the namespace holds the two seeds and
    nothing else: every other name is unbound, whatever earlier executions
    had bound.  On MiniPy a later call that reads such a name, [print] apart,
    answers with the error envelope of the undefined-name error and changes
    nothing; the alias [pd] and the built-in [print] are there at once. *)
Theorem reset_forgets_bindings (self : PythonREPLServer)
    (args : list (string * json)) (p : process) :
  truthy (args_get "code" args) = true ->
  truthy (args_get "reset" args) = true ->
  handle_call_tool self "execute_python" (Some args) p
  = (Return [text_content reset_message], MiniPy.fresh_server, p)
  /\ (forall x, x <> "pd" -> x <> "__builtins__" ->
                dict_get x (global_namespace MiniPy.fresh_server) = None)
  /\ (forall x code q,
         MiniPy.compile_exec code = inr [ExprStmt (MiniPy.EName x)] ->
         x <> "pd" -> x <> "__builtins__" -> x <> "print" ->
         MiniPy.execute MiniPy.fresh_server code q
         = (Return (execution_error (NameError x)), MiniPy.fresh_server,
            restore q (capturing q)))
  /\ (forall q,
         fst (fst (MiniPy.execute MiniPy.fresh_server "pd" q))
         = Return [text_content (dumps1 "result" MiniPy.pandas_text)])
  /\ MiniPy.execute MiniPy.fresh_server "print(1)" MiniPy.fresh_process
     = (Return [text_content
                  ("{" ++ json_string "output" ++ ": "
                   ++ json_string ("1" ++ str1 LF) ++ ", "
                   ++ json_string "result" ++ ": " ++ json_string "None" ++ "}")],
        MiniPy.fresh_server,
        MiniPy.after_call ("1" ++ str1 LF) ("1" ++ str1 LF)).
Proof.
  intros Hcode Hreset. split; [|split; [|split; [|split]]].
  - rewrite (reset_short_circuits self args p Hreset). now rewrite Hcode.
  - intros x Hpd Hb. now apply initial_namespace_only_seeds.
  - intros x code q Hc Hpd Hb Hprint.
    assert (Hne : code <> EmptyString) by now apply (compile_name_nonempty code x).
    assert (Hlookup : MiniPy.lookup x (global_namespace MiniPy.fresh_server)
                      = Raised (NameError x)).
    { unfold MiniPy.lookup, MiniPy.fresh_server. simpl global_namespace.
      rewrite (initial_namespace_only_seeds x Hpd Hb).
      destruct (String.eqb x "print") eqn:E;
        [apply String.eqb_eq in E; contradiction | reflexivity]. }
    assert (Hrun : statement_run MiniPy.fresh_server (JString code) q
                   = (Raised (NameError x), global_namespace MiniPy.fresh_server,
                      restore q (capturing q))).
    { rewrite (@statement_run_compiled MiniPy.runtime MiniPy.fresh_server code q
                 [ExprStmt (MiniPy.EName x)] Hc).
      change (ensure_builtins (global_namespace MiniPy.fresh_server))
        with (global_namespace MiniPy.fresh_server).
      simpl run_stmts. simpl in Hlookup. now rewrite Hlookup. }
    unfold MiniPy.execute, MiniPy.execute_request.
    rewrite (execute_after_raise MiniPy.fresh_server [("code", JString code)] q
               _ _ _ (nonempty_truthy code Hne) eq_refl Hrun).
    reflexivity.
  - intros q. destruct (fresh_buffers q) as [Ho He].
    unfold MiniPy.execute, MiniPy.execute_request.
    rewrite (execute_after_run MiniPy.fresh_server [("code", JString "pd")] "pd"
               q tt (global_namespace MiniPy.fresh_server)
               (restore q (capturing q)) EmptyString EmptyString
               eq_refl ltac:(discriminate) eq_refl eq_refl Ho He).
    reflexivity.
  - reflexivity.
Qed.

(** C6 at a server where [x] is bound: after the reset, the request [x]
    answers with the undefined-name error. *)
Lemma reset_forgets_bindings_witness :
  handle_call_tool (MiniPy.server_with [("x", VInt 5)]) "execute_python"
                   (MiniPy.reset_request "pass") MiniPy.fresh_process
  = (Return [text_content reset_message], MiniPy.fresh_server,
     MiniPy.fresh_process)
  /\ MiniPy.execute MiniPy.fresh_server "x" MiniPy.fresh_process
     = (Return (execution_error (NameError "x")), MiniPy.fresh_server,
        MiniPy.after_call EmptyString EmptyString).
Proof.
  destruct (reset_forgets_bindings (MiniPy.server_with [("x", VInt 5)])
              [("code", JString "pass"); ("reset", JBool true)]
              MiniPy.fresh_process eq_refl eq_refl)
    as [Hreset [_ [Hname _]]].
  split; [exact Hreset|].
  refine (Hname "x" "x" MiniPy.fresh_process _ _ _ _);
    try reflexivity; discriminate.
Defined.

(** C6 as stated fails: the name [pd], bound to 5 by an earlier execution,
    is not undefined after the reset; a call that reads it gets the module. *)
Lemma reset_forgets_bindings_counterexample :
  dict_get "pd"
    (global_namespace
       (snd (fst (MiniPy.execute MiniPy.fresh_server "pd = 5"
                                 MiniPy.fresh_process))))
  = Some (VInt 5)
  /\ snd (fst (handle_call_tool
                 (snd (fst (MiniPy.execute MiniPy.fresh_server "pd = 5"
                                           MiniPy.fresh_process)))
                 "execute_python" (MiniPy.reset_request "pass")
                 MiniPy.fresh_process))
     = MiniPy.fresh_server
  /\ fst (fst (MiniPy.execute MiniPy.fresh_server "pd" MiniPy.fresh_process))
     = Return [text_content (dumps1 "result" MiniPy.pandas_text)]
  /\ fst (fst (MiniPy.execute MiniPy.fresh_server "pd" MiniPy.fresh_process))
     <> Return (execution_error (NameError "pd")).
Proof.
  split; [reflexivity|]. split; [reflexivity|]. split; [reflexivity|].
  discriminate.
Qed.

End MiniPyFacts.

(** ** More of the handler, for every runtime *)

Section HandlerFacts.

Context {R : Runtime}.

(** *** Dispatch and arguments *)

(** X1.  The names [handle_list_tools] advertises are the names the handler
    serves: a call with arguments on an advertised name goes to the branch of
    that name, and a call on any other name raises the unknown-tool error and
    changes nothing. *)
Theorem advertised_tools_are_served (self : PythonREPLServer) (nm : string)
    (a : string * json) (args : list (string * json)) (p : process) :
  (In nm (map name handle_list_tools) ->
   handle_call_tool self nm (Some (a :: args)) p
   = if String.eqb nm "execute_python" then execute_python self (a :: args) p
     else if String.eqb nm "install_package" then install_package self (a :: args) p
     else list_variables self p)
  /\ (~ In nm (map name handle_list_tools) ->
      handle_call_tool self nm (Some (a :: args)) p
      = (Raise (ValueError ("Unknown tool: " ++ nm)), self, p)).
Proof.
  split.
  - intros [H | [H | [H | []]]]; subst nm; reflexivity.
  - intros Hnot. simpl in Hnot.
    assert (H1 : String.eqb nm "execute_python" = false).
    { destruct (String.eqb nm "execute_python") eqn:E; [|reflexivity].
      apply String.eqb_eq in E. exfalso. apply Hnot. now left. }
    assert (H2 : String.eqb nm "install_package" = false).
    { destruct (String.eqb nm "install_package") eqn:E; [|reflexivity].
      apply String.eqb_eq in E. exfalso. apply Hnot. right. right. now left. }
    assert (H3 : String.eqb nm "list_variables" = false).
    { destruct (String.eqb nm "list_variables") eqn:E; [|reflexivity].
      apply String.eqb_eq in E. exfalso. apply Hnot. right. now left. }
    unfold handle_call_tool. now rewrite H1, H2, H3.
Qed.

(** X2.  The handler enforces what the schemas require: for every advertised tool
    and every key its schema lists as required, a call whose arguments lack
    the key raises a [ValueError] and leaves the server and the process as
    they were. *)
Theorem required_arguments_enforced (self : PythonREPLServer) (tool : Tool)
    (key : string) (args : list (string * json)) (p : process) :
  In tool handle_list_tools ->
  In key (required_keys (inputSchema tool)) ->
  args <> [] ->
  dict_get key args = None ->
  exists msg,
    handle_call_tool self (name tool) (Some args) p
    = (Raise (ValueError msg), self, p).
Proof.
  intros Htool Hkey Hargs Hmissing.
  destruct args as [|a args]; [contradiction|].
  destruct Htool as [H | [H | [H | []]]]; subst tool; simpl in Hkey.
  - destruct Hkey as [<- | []].
    exists "Missing code parameter". simpl name.
    change (handle_call_tool self "execute_python" (Some (a :: args)) p)
      with (execute_python self (a :: args) p).
    unfold execute_python, args_get. now rewrite Hmissing.
  - contradiction.
  - destruct Hkey as [<- | []].
    exists "Missing package name". simpl name.
    change (handle_call_tool self "install_package" (Some (a :: args)) p)
      with (install_package self (a :: args) p).
    unfold install_package, args_get. now rewrite Hmissing.
Qed.

(** X3.  A call without arguments, or with an empty mapping of arguments, raises
    the missing-arguments error whatever the tool name is, also for
    [list_variables], whose schema declares no argument at all. *)
Theorem empty_arguments_rejected (self : PythonREPLServer) (nm : string)
    (p : process) :
  handle_call_tool self nm None p
  = (Raise (ValueError "Missing arguments"), self, p)
  /\ handle_call_tool self nm (Some []) p
     = (Raise (ValueError "Missing arguments"), self, p)
  /\ exists tool,
       In tool handle_list_tools
       /\ name tool = "list_variables"
       /\ required_keys (inputSchema tool) = [].
Proof.
  split; [reflexivity|]. split; [reflexivity|].
  exists (nth 1 handle_list_tools (mk_tool EmptyString EmptyString JNull)).
  simpl. auto.
Qed.

(** *** What a call can give back *)

Lemma classify_single (fields : list (string * pyval)) (v : pyval)
    (content : list TextContent) :
  classify fields v = inr content -> exists t, content = [text_content t].
Proof.
  unfold classify. intros H.
  destruct v;
    repeat match type of H with
           | match ?x with _ => _ end = _ => destruct x; try discriminate H
           end;
    injection H as <-; eexists; reflexivity.
Qed.

Lemma try_execute_single (out_buf err_buf : nat) (code : json) (ns : namespace)
    (p : process) (content : list TextContent) (ns' : namespace) (p' : process) :
  try_execute out_buf err_buf code ns p = (Normal content, ns', p') ->
  exists t, content = [text_content t].
Proof.
  unfold try_execute. intros H.
  destruct (captured_exec out_buf err_buf code ns p) as [[[u|e] ns1] p1];
    [|discriminate H].
  destruct (getvalue out_buf p1); [discriminate H|].
  destruct (getvalue err_buf p1); [discriminate H|].
  destruct (code_strip code); [discriminate H|].
  destruct (py_eval _ ns1 p1) as [[[v|e] ns2] p2]; [|discriminate H].
  destruct (classify _ v) as [e|c] eqn:E; [discriminate H|].
  injection H as <- _ _. now apply (classify_single _ _ _ E).
Qed.

(** X4.  Failures of an execute call are data: a call that carries code either
    returns one text block, or lets through an exception that is not an
    [Exception] (an exit or an interrupt); it never raises an [Exception]. *)
Theorem execute_failures_are_data (self : PythonREPLServer)
    (args : list (string * json)) (p : process) :
  truthy (args_get "code" args) = true ->
  match fst (fst (handle_call_tool self "execute_python" (Some args) p)) with
  | Return content => exists t, content = [text_content t]
  | Raise e => exc_isinstance e "Exception" = false
  end.
Proof.
  intros Ht. rewrite handle_execute by exact Ht.
  unfold execute_python. rewrite Ht. simpl negb. cbv iota.
  destruct (truthy (args_get "reset" args)); [simpl; eexists; reflexivity|].
  unfold new_StringIO.
  match goal with
  | |- context [try_execute ?o ?e ?c ?n ?q] =>
      destruct (try_execute o e c n q) as [[[content|ex] ns'] p'] eqn:E
  end; simpl.
  - now apply (try_execute_single _ _ _ _ _ _ _ _ E).
  - unfold except_Exception, execution_error.
    destruct (exc_isinstance ex "Exception") eqn:Hex;
      [eexists; reflexivity | exact Hex].
Qed.

(** X5.  Whatever the tool and the arguments, content that is returned is a list
    of exactly one block, of type text. *)
Theorem returned_content_is_one_text_block (self : PythonREPLServer)
    (nm : string) (arguments : option (list (string * json))) (p : process)
    (content : list TextContent) (self' : PythonREPLServer) (p' : process) :
  handle_call_tool self nm arguments p = (Return content, self', p') ->
  exists t, content = [mk_content "text" t].
Proof.
  unfold handle_call_tool.
  destruct arguments as [[|a args]|]; try discriminate.
  destruct (String.eqb nm "execute_python").
  - unfold execute_python.
    destruct (negb (truthy (args_get "code" (a :: args)))); [discriminate|].
    destruct (truthy (args_get "reset" (a :: args))).
    + intros H. injection H as <- _ _. eexists; reflexivity.
    + unfold new_StringIO.
      match goal with
      | |- context [try_execute ?o ?e ?c ?n ?q] =>
          destruct (try_execute o e c n q) as [[[c0|ex] ns'] p0] eqn:E
      end; intros H.
      * injection H as <- _ _.
        now apply (try_execute_single _ _ _ _ _ _ _ _ E).
      * unfold except_Exception in H.
        destruct (exc_isinstance ex "Exception"); [|discriminate H].
        injection H as <- _ _. eexists; reflexivity.
  - destruct (String.eqb nm "install_package").
    + unfold install_package, install_validated, invalid_package.
      intros H.
      repeat match type of H with
             | (if ?x then _ else _) = _ => destruct x; try discriminate H
             | match ?x with _ => _ end = _ => destruct x; try discriminate H
             | (let (_, _) := ?x in _) = _ => destruct x; try discriminate H
             end;
        injection H as <- _ _; eexists; reflexivity.
    + destruct (String.eqb nm "list_variables"); [|discriminate].
      unfold list_variables. intros H.
      repeat match type of H with
             | match ?x with _ => _ end = _ => destruct x; try discriminate H
             end.
      injection H as <- _ _. eexists; reflexivity.
Qed.

(** *** The listing *)

Lemma dict_get_none_iff {A : Type} (k : string) (d : list (string * A)) :
  dict_get k d = None <-> ~ In k (map fst d).
Proof.
  induction d as [|[k' v] d IH]; simpl.
  - split; [intros _ [] | reflexivity].
  - destruct (String.eqb k k') eqn:E.
    + apply String.eqb_eq in E. subst k'. split; [discriminate|].
      intros H. exfalso. apply H. now left.
    + apply String.eqb_neq in E. rewrite IH. split.
      * intros H [H1 | H1]; [now apply E | now apply H].
      * intros H H1. apply H. now right.
Qed.




Lemma listing_dispatch (self : PythonREPLServer) (args : list (string * json))
    (p : process) :
  args <> [] ->
  handle_call_tool self "list_variables" (Some args) p = list_variables self p.
Proof. destruct args; [contradiction | reflexivity]. Qed.



(** *** The install branch *)

Lemma split_without_separator (sep : ascii) (s : string) :
  contains_char sep s = false -> split sep s = [s].
Proof.
  induction s as [|c s IH]; simpl; [reflexivity|].
  intros H. apply orb_false_elim in H as [H1 H2].
  rewrite Ascii.eqb_sym, H1. now rewrite (IH H2).
Qed.

Lemma name_class_excludes_bracket (c : ascii) :
  in_name_class c = true -> Ascii.eqb "["%char c = false.
Proof.
  intros H. destruct (Ascii.eqb "["%char c) eqn:E; [|reflexivity].
  apply Ascii.eqb_eq in E. subst c. discriminate H.
Qed.

Lemma name_tail_has_no_bracket (s : string) :
  match_name_tail s = true -> contains_char "["%char s = false.
Proof.
  induction s as [|c s IH]; [reflexivity|].
  cbn [match_name_tail contains_char].
  destruct (in_name_class c) eqn:Hc.
  - intros H. rewrite (name_class_excludes_bracket c Hc). now apply IH.
  - intros H. apply andb_prop in H as [H1 H2].
    apply Ascii.eqb_eq in H1. apply String.eqb_eq in H2. now subst.
Qed.

Lemma accepted_has_no_bracket (pkg : string) :
  re_match_package pkg = true -> contains_char "["%char pkg = false.
Proof.
  destruct pkg as [|c s]; [discriminate|].
  cbn [re_match_package contains_char].
  intros H. apply andb_prop in H as [H1 H2].
  rewrite (name_tail_has_no_bracket s H2).
  assert (Hc : in_name_class c = true) by (unfold in_name_class; now rewrite H1).
  now rewrite (name_class_excludes_bracket c Hc).
Qed.

Lemma contains_char_middle (c : ascii) (a b : string) :
  contains_char c (a ++ String c b) = true.
Proof.
  induction a as [|c' a IH]; simpl.
  - now rewrite Ascii.eqb_refl.
  - rewrite IH. apply orb_true_r.
Qed.

(** X9.  The name check accepts exactly the allow-listed names and the
    allow-listed names followed by one line feed: the dollar sign of the
    pattern also matches just before a line feed that ends the text. *)
Theorem name_check_accepts (pkg : string) :
  re_match_package pkg = true
  <-> allow_listed pkg = true
      \/ exists t, pkg = t ++ str1 LF /\ allow_listed t = true.
Proof. exact (re_match_package_spec pkg). Qed.

(** X10.  No extras suffix gets through the name check: a package string with an
    opening bracket anywhere is refused, so for every accepted string the
    module that is imported is the package string itself. *)
Theorem accepted_name_has_no_extras (pkg : string) :
  (re_match_package pkg = true ->
   contains_char "["%char pkg = false /\ base_module pkg = pkg)
  /\ (forall a b, re_match_package (a ++ String "["%char b) = false).
Proof.
  split.
  - intros H. pose proof (accepted_has_no_bracket pkg H) as Hno.
    split; [exact Hno|].
    unfold base_module. now rewrite (split_without_separator _ _ Hno).
  - intros a b.
    destruct (re_match_package (a ++ String "["%char b)) eqn:E; [|reflexivity].
    apply accepted_has_no_bracket in E.
    now rewrite contains_char_middle in E.
Qed.

Lemma subprocess_run_completed (cmd : list string) (p : process) (rc : Z)
    (out err : string) (p' : process) :
  subprocess_run cmd p = (CompletedProcess rc out err, p') -> rc = 0%Z.
Proof.
  unfold subprocess_run.
  destruct (spawn cmd _) as [[rc' out' err' | e] q].
  - destruct (Z.eqb rc' 0) eqn:E; intros H; [|discriminate H].
    injection H as <- _ _ _. now apply Z.eqb_eq.
  - discriminate.
Qed.

(** X11.  The exit status test after the install command never fires: with
    [check=True] a non-zero exit has already been raised, so the call never
    answers with the error envelope of that test. *)
Theorem returncode_test_never_fires (self : PythonREPLServer) (pkg : string)
    (p1 : process) (err : string) :
  fst (fst (install_validated self pkg p1))
  <> Return [text_content (dumps1 "error" ("Failed to install package: " ++ err))].
Proof.
  unfold install_validated.
  destruct (subprocess_run (install_cmd pkg) p1) as [[rc out e2 | rc out e2 | e] p2] eqn:E.
  - rewrite (subprocess_run_completed _ _ _ _ _ _ E). simpl negb. cbv iota.
    destruct (py_exec _ _ p2) as [[[u|ex] ns] p3]; simpl.
    + unfold dumps1, json_string. simpl. intros H. discriminate H.
    + destruct (exc_isinstance ex "ImportError"); simpl.
      * unfold dumps1, json_string. simpl. intros H. discriminate H.
      * destruct (exc_isinstance ex "CalledProcessError"); simpl.
        -- unfold dumps1, json_string. simpl. intros H. discriminate H.
        -- discriminate.
  - simpl. unfold dumps1, json_string. simpl. intros H. discriminate H.
  - simpl. discriminate.
Qed.

(** X12.  The install branch touches the session namespace in one place only: the
    server comes back as it was, unless the name passed the check and both
    commands completed, in which case its namespace is the one the import
    statement left. *)
Theorem install_changes_namespace_only_by_import (self : PythonREPLServer)
    (args : list (string * json)) (p : process) :
  let call := handle_call_tool self "install_package" (Some args) p in
  snd (fst call) = self
  \/ exists pkg out1 err1 out2 err2,
       args_get "package" args = JString pkg
       /\ re_match_package pkg = true
       /\ fst (subprocess_run bootstrap_cmd p) = CompletedProcess 0 out1 err1
       /\ fst (subprocess_run (install_cmd pkg)
                              (snd (subprocess_run bootstrap_cmd p)))
          = CompletedProcess 0 out2 err2
       /\ global_namespace (snd (fst call))
          = snd (fst (py_exec ("import " ++ pkg) (global_namespace self)
                        (snd (subprocess_run (install_cmd pkg)
                                (snd (subprocess_run bootstrap_cmd p)))))).
Proof.
  intros call. unfold call, handle_call_tool.
  destruct args as [|a args]; [now left|]. simpl String.eqb. cbv iota.
  unfold install_package.
  destruct (negb (truthy (args_get "package" (a :: args)))); [now left|].
  destruct (subprocess_run bootstrap_cmd p) as [[rc1 out1 err1 | rc1 out1 err1 | e1] p1] eqn:E1;
    [|now left|now left].
  destruct (args_get "package" (a :: args)) as [| | |pkg| |] eqn:Hpkg;
    try (now left).
  destruct (re_match_package pkg) eqn:Hre; [|now left].
  simpl negb. cbv iota. unfold install_validated.
  destruct (subprocess_run (install_cmd pkg) p1) as [[rc2 out2 err2 | rc2 out2 err2 | e2] p2] eqn:E2;
    [|now left|now left].
  pose proof (subprocess_run_completed _ _ _ _ _ _ E1) as ->.
  pose proof (subprocess_run_completed _ _ _ _ _ _ E2) as ->.
  simpl negb. cbv iota.
  assert (Hbase : base_module pkg = pkg).
  { unfold base_module.
    now rewrite (split_without_separator _ _ (accepted_has_no_bracket pkg Hre)). }
  rewrite Hbase.
  right. exists pkg, out1, err1, out2, err2.
  cbn [fst snd]. rewrite E2. cbn [fst snd].
  split; [reflexivity|]. split; [exact Hre|].
  split; [reflexivity|]. split; [reflexivity|].
  destruct (py_exec ("import " ++ pkg) (global_namespace self) p2)
    as [[[u|ex] ns] p3]; cbn [fst snd]; [reflexivity|].
  destruct (exc_isinstance ex "ImportError"); [reflexivity|].
  destruct (exc_isinstance ex "CalledProcessError"); reflexivity.
Qed.

(** X13.  Once the name has passed the check and both commands have
    completed, the import decides the answer: the success envelope when it
    runs; the import-failed envelope when it raises an [ImportError]; the
    envelope of the outer [except], with the error output the exception
    carries, when it raises a [CalledProcessError] that is no [ImportError];
    and a raised exception, not an envelope, when it fails in any other way
    (a package name that is no identifier, for one, is a syntax error). *)
Theorem install_outcome_follows_import (self : PythonREPLServer)
    (args : list (string * json)) (pkg : string) (p p1 p2 : process)
    (out1 err1 out2 err2 : string) (o : outcome unit) (ns : namespace)
    (p3 : process) :
  args_get "package" args = JString pkg ->
  re_match_package pkg = true ->
  subprocess_run bootstrap_cmd p = (CompletedProcess 0 out1 err1, p1) ->
  subprocess_run (install_cmd pkg) p1 = (CompletedProcess 0 out2 err2, p2) ->
  py_exec ("import " ++ pkg) (global_namespace self) p2 = (o, ns, p3) ->
  handle_call_tool self "install_package" (Some args) p
  = (match o with
     | Normal _ =>
         Return [mk_content "text"
                   ("{" ++ (json_string "success" ++ ": "
                            ++ json_string
                                 ("Successfully installed and imported " ++ pkg))
                    ++ "}")]
     | Raised e =>
         if exc_isinstance e "ImportError"
         then Return [mk_content "text"
                        ("{" ++ (json_string "error" ++ ": "
                                 ++ json_string
                                      ("Package installed but import failed: "
                                       ++ exc_str e))
                         ++ "}")]
         else if exc_isinstance e "CalledProcessError"
         then Return [mk_content "text"
                        ("{" ++ (json_string "error" ++ ": "
                                 ++ json_string
                                      ("Failed to install package:" ++ str1 LF
                                       ++ exc_stderr e))
                         ++ "}")]
         else Raise e
     end, mk_server ns, p3).
Proof.
  intros Hpkg Hre Hboot Hinst Himport.
  assert (Hne : pkg <> EmptyString) by (intros ->; discriminate Hre).
  assert (Ht : truthy (args_get "package" args) = true)
    by (rewrite Hpkg; now apply nonempty_truthy).
  rewrite (install_dispatch _ _ _ Ht).
  unfold install_package. rewrite Ht, Hpkg, Hboot, Hre. simpl negb. cbv iota.
  unfold install_validated. rewrite Hinst. simpl negb. cbv iota.
  assert (Hbase : base_module pkg = pkg).
  { unfold base_module.
    now rewrite (split_without_separator _ _ (accepted_has_no_bracket pkg Hre)). }
  rewrite Hbase, Himport.
  destruct o as [u|e]; [reflexivity|].
  destruct (exc_isinstance e "ImportError"); [reflexivity|].
  destruct (exc_isinstance e "CalledProcessError"); reflexivity.
Qed.

(** *** A code argument that is no text *)

(** X15.  A truthy code argument that is not a string (a number, a list, a
    mapping) is not a protocol error: [exec] refuses it inside the capture
    scope, and the call answers with the error envelope of that
    [TypeError]. *)
Theorem non_string_code_is_an_error_envelope (self : PythonREPLServer)
    (args : list (string * json)) (p : process) :
  truthy (args_get "code" args) = true ->
  (forall src, args_get "code" args <> JString src) ->
  truthy (args_get "reset" args) = false ->
  fst (fst (handle_call_tool self "execute_python" (Some args) p))
  = Return (execution_error
              (TypeError "exec() arg 1 must be a string, bytes or code object"))
  /\ snd (handle_call_tool self "execute_python" (Some args) p)
     = restore p (capturing p).
Proof.
  intros Ht Hnot Hreset.
  assert (Hrun : statement_run self (args_get "code" args) p
                 = (Raised (TypeError "exec() arg 1 must be a string, bytes or code object"),
                    ensure_builtins (global_namespace self),
                    restore p (capturing p))).
  { rewrite statement_run_eq.
    destruct (args_get "code" args) as [| | |src| |]; try reflexivity.
    exfalso. now apply (Hnot src). }
  rewrite (execute_after_raise _ _ _ _ _ _ Ht Hreset Hrun).
  split; reflexivity.
Qed.

End HandlerFacts.

(** ** The text the handler cuts out of the code *)

Lemma string_app_assoc (a b c : string) : (a ++ b) ++ c = a ++ (b ++ c).
Proof. induction a as [|x a IH]; simpl; [reflexivity | now rewrite IH]. Qed.

Lemma string_app_empty_r (a : string) : a ++ EmptyString = a.
Proof. induction a as [|x a IH]; simpl; [reflexivity | now rewrite IH]. Qed.

Lemma split_nonempty (sep : ascii) (s : string) : split sep s <> [].
Proof.
  destruct s as [|c s]; simpl; [discriminate|].
  destruct (Ascii.eqb c sep); [discriminate|].
  destruct (split sep s); discriminate.
Qed.

Lemma join_cons (sep x : string) (l : list string) :
  l <> [] -> join sep (x :: l) = x ++ sep ++ join sep l.
Proof. destruct l; [contradiction | reflexivity]. Qed.

Lemma join_snoc (sep x : string) (l : list string) :
  l <> [] -> join sep (l ++ [x]) = join sep l ++ sep ++ x.
Proof.
  induction l as [|y l IH]; [contradiction|]. intros _.
  destruct l as [|z l].
  - reflexivity.
  - change ((y :: z :: l) ++ [x])%list with (y :: ((z :: l) ++ [x]))%list.
    rewrite join_cons by discriminate.
    rewrite IH by discriminate.
    rewrite (join_cons sep y (z :: l)) by discriminate.
    now rewrite !string_app_assoc.
Qed.

Lemma join_split (sep : ascii) (s : string) :
  join (str1 sep) (split sep s) = s
  /\ Forall (fun piece => contains_char sep piece = false) (split sep s).
Proof.
  induction s as [|c s [IHjoin IHall]].
  - split; [reflexivity | repeat constructor].
  - cbn [split]. destruct (Ascii.eqb c sep) eqn:E.
    + apply Ascii.eqb_eq in E. subst c. split.
      * rewrite join_cons by apply split_nonempty. now rewrite IHjoin.
      * constructor; [reflexivity | exact IHall].
    + pose proof (split_nonempty sep s) as Hne.
      destruct (split sep s) as [|piece pieces]; [contradiction|].
      pose proof (Forall_inv IHall) as Hpiece.
      pose proof (Forall_inv_tail IHall) as Hpieces.
      simpl in Hpiece.
      split.
      * destruct pieces as [|q pieces].
        -- simpl in *. now rewrite IHjoin.
        -- rewrite join_cons by discriminate.
           rewrite join_cons in IHjoin by discriminate.
           rewrite <- IHjoin. reflexivity.
      * constructor; [|exact Hpieces].
        cbn [contains_char]. rewrite Ascii.eqb_sym, E. exact Hpiece.
Qed.

(** X17.  Splitting and joining on one character are inverse to each other, and
    no piece of a split holds the separator. *)
Theorem split_join_round_trip (sep : ascii) (s : string) :
  join (str1 sep) (split sep s) = s
  /\ Forall (fun piece => contains_char sep piece = false) (split sep s).
Proof. exact (join_split sep s). Qed.

Lemma last_char_snoc (a : string) (c : ascii) :
  last_char (a ++ str1 c) = Some c.
Proof.
  induction a as [|x a IH]; [reflexivity|].
  simpl. destruct (a ++ str1 c) eqn:E; [|exact IH].
  destruct a; discriminate E.
Qed.

Lemma last_char_app (a b : string) :
  b <> EmptyString -> last_char (a ++ b) = last_char b.
Proof.
  intros Hb. induction a as [|x a IH]; [reflexivity|].
  simpl. destruct (a ++ b) eqn:E; [|exact IH].
  destruct a; [simpl in E; contradiction | discriminate E].
Qed.

Lemma lstrip_head (s : string) :
  match lstrip s with
  | EmptyString => True
  | String c _ => py_isspace c = false
  end.
Proof.
  induction s as [|c s IH]; simpl; [exact I|].
  destruct (py_isspace c) eqn:E; [exact IH | exact E].
Qed.

Lemma lstrip_empty_iff (s : string) :
  lstrip s = EmptyString <-> all_space s = true.
Proof.
  induction s as [|c s IH]; simpl; [tauto|].
  destruct (py_isspace c); simpl; [exact IH|].
  split; discriminate.
Qed.

Lemma all_space_lstrip (s : string) : all_space (lstrip s) = all_space s.
Proof.
  induction s as [|c s IH]; simpl; [reflexivity|].
  destruct (py_isspace c) eqn:E; simpl; [exact IH | now rewrite E].
Qed.

Lemma rev_onto_last_char (s acc : string) :
  acc <> EmptyString ->
  last_char (string_rev_onto s acc) = last_char acc.
Proof.
  revert acc. induction s as [|c s IH]; intros acc Hacc; simpl; [reflexivity|].
  rewrite IH by discriminate.
  simpl. destruct acc; [contradiction | reflexivity].
Qed.

Lemma rev_onto_all_space (s acc : string) :
  all_space (string_rev_onto s acc) = all_space s && all_space acc.
Proof.
  revert acc. induction s as [|c s IH]; intros acc; simpl; [reflexivity|].
  rewrite IH. simpl. destruct (py_isspace c), (all_space s); reflexivity.
Qed.

Lemma rev_onto_empty (s acc : string) :
  string_rev_onto s acc = EmptyString -> s = EmptyString /\ acc = EmptyString.
Proof.
  revert acc. induction s as [|c s IH]; intros acc H; simpl in H.
  - now split.
  - destruct (IH _ H) as [_ Hacc]. discriminate Hacc.
Qed.

Lemma rstrip_last_char (s : string) (c : ascii) :
  last_char (rstrip s) = Some c -> py_isspace c = false.
Proof.
  unfold rstrip, string_rev.
  pose proof (lstrip_head (string_rev_onto s EmptyString)) as Hhead.
  destruct (lstrip (string_rev_onto s EmptyString)) as [|c0 t]; simpl.
  - discriminate.
  - rewrite rev_onto_last_char by discriminate. simpl.
    intros H. injection H as <-. exact Hhead.
Qed.

Lemma rstrip_empty_iff (s : string) :
  rstrip s = EmptyString <-> all_space s = true.
Proof.
  unfold rstrip, string_rev. split.
  - intros H. apply rev_onto_empty in H as [H _].
    apply lstrip_empty_iff in H. rewrite rev_onto_all_space in H.
    simpl in H. now rewrite andb_true_r in H.
  - intros H.
    assert (Hrev : all_space (string_rev_onto s EmptyString) = true)
      by (rewrite rev_onto_all_space; simpl; now rewrite andb_true_r).
    apply lstrip_empty_iff in Hrev. now rewrite Hrev.
Qed.

Lemma strip_empty_iff (s : string) :
  strip s = EmptyString <-> all_space s = true.
Proof.
  unfold strip. rewrite rstrip_empty_iff. now rewrite all_space_lstrip.
Qed.

Lemma last_piece_suffix (sep : ascii) (s : string) :
  exists pre,
    s = pre ++ last (split sep s) EmptyString
    /\ (pre = EmptyString \/ last_char pre = Some sep).
Proof.
  destruct (join_split sep s) as [Hjoin _].
  pose proof (split_nonempty sep s) as Hne.
  destruct (exists_last Hne) as [init [l Heq]].
  rewrite Heq in Hjoin. rewrite Heq, last_last.
  destruct init as [|x init].
  - exists EmptyString. split; [now rewrite <- Hjoin | now left].
  - rewrite join_snoc in Hjoin by discriminate.
    exists (join (str1 sep) (x :: init) ++ str1 sep). split.
    + rewrite <- Hjoin. now rewrite string_app_assoc.
    + right. apply last_char_snoc.
Qed.

(** X16.  The line the handler re-evaluates, [code.strip().split('\n')[-1]]: it
    holds no line feed; it is what follows the last line feed of the stripped
    code; it is empty exactly when the code is all blanks; and it never ends
    in a blank. *)
Theorem last_line_spec (code : string) :
  contains_char LF (last_line code) = false
  /\ (exists pre,
        strip code = pre ++ last_line code
        /\ (pre = EmptyString \/ last_char pre = Some LF))
  /\ (last_line code = EmptyString <-> all_space code = true)
  /\ (forall c, last_char (last_line code) = Some c -> py_isspace c = false).
Proof.
  unfold last_line.
  destruct (last_piece_suffix LF (strip code)) as [pre [Heq Hpre]].
  assert (Hstrip : forall c, last_char (strip code) = Some c ->
                             py_isspace c = false)
    by (intros c; apply rstrip_last_char).
  split; [|split; [|split]].
  - destruct (join_split LF (strip code)) as [_ Hall].
    pose proof (split_nonempty LF (strip code)) as Hne.
    destruct (exists_last Hne) as [init [l Hl]].
    rewrite Hl in Hall |- *. rewrite last_last.
    apply Forall_app in Hall as [_ Hall]. now inversion Hall.
  - exists pre. now split.
  - split.
    + intros Hempty. apply strip_empty_iff.
      rewrite Hempty, string_app_empty_r in Heq.
      destruct Hpre as [-> | Hlast]; [exact Heq|].
      rewrite <- Heq in Hlast. now apply Hstrip in Hlast.
    + intros Hall. apply strip_empty_iff in Hall. now rewrite Hall.
  - intros c Hc. apply Hstrip. rewrite Heq.
    rewrite last_char_app; [exact Hc|].
    intros Hempty. rewrite Hempty in Hc. discriminate Hc.
Qed.

(** ** The text of the envelopes *)

Lemma all_printable_app (a b : string) :
  all_printable (a ++ b) = all_printable a && all_printable b.
Proof.
  induction a as [|c a IH]; simpl; [reflexivity|].
  rewrite IH. now rewrite andb_assoc.
Qed.

Lemma json_escape_char_printable (c : ascii) :
  all_printable (json_escape_char c) = true.
Proof.
  destruct c as [[] [] [] [] [] [] [] []]; reflexivity.
Qed.

Lemma json_string_printable (s : string) : all_printable (json_string s) = true.
Proof.
  unfold json_string. rewrite !all_printable_app. simpl.
  rewrite andb_true_r.
  induction s as [|c s IH]; simpl; [reflexivity|].
  rewrite all_printable_app, json_escape_char_printable. exact IH.
Qed.

(** X18.  The error and success envelopes are printable ASCII whatever their
    message holds (a trace, the error output of the package manager, a
    package name): the encoder escapes every other character. *)
Theorem envelope_text_is_printable_ascii (key value : string) :
  all_printable (dumps1 key value) = true.
Proof.
  unfold dumps1. rewrite !all_printable_app.
  now rewrite !json_string_printable.
Qed.

(** ** Calls that follow each other *)

Section Sequences.

Context {R : Runtime}.

Lemma reset_short_circuits_eq (self : PythonREPLServer)
    (args : list (string * json)) (p : process) :
  truthy (args_get "code" args) = true ->
  truthy (args_get "reset" args) = true ->
  handle_call_tool self "execute_python" (Some args) p
  = (Return [text_content reset_message], mk_server initial_namespace, p).
Proof.
  intros Hcode Hreset. rewrite (handle_execute _ _ _ Hcode).
  unfold execute_python. now rewrite Hcode, Hreset.
Qed.

(** X8.  After a reset the listing shows the alias and nothing else: whatever the
    session held before, the call that follows a reset returns the mapping
    with the single entry [pd], when the [repr] of the module succeeds. *)
Theorem listing_after_reset (self : PythonREPLServer)
    (args args' : list (string * json)) (p : process) (r : string) :
  truthy (args_get "code" args) = true ->
  truthy (args_get "reset" args) = true ->
  args' <> [] ->
  repr pd = inr r ->
  exists t,
    json_dumps (str_dict [("variables", str_dict [("pd", VStr r)])]) = inr t
    /\ handle_call_tool
         (snd (fst (handle_call_tool self "execute_python" (Some args) p)))
         "list_variables" (Some args')
         (snd (handle_call_tool self "execute_python" (Some args) p))
       = (Return [text_content t], mk_server initial_namespace, p).
Proof.
  intros Hcode Hreset Hargs Hrepr.
  rewrite (reset_short_circuits_eq self args p Hcode Hreset).
  cbn [fst snd]. rewrite (listing_dispatch _ _ _ Hargs).
  unfold list_variables, initial_namespace. cbn [global_namespace vars_dict].
  cbn [startswith]. simpl negb. cbv iota. cbn [andb].
  change (startswith "_"%char "pd") with false.
  change (String.eqb "pd" "__builtins__") with false.
  cbn [negb andb]. rewrite Hrepr. cbn [dict_set].
  eexists. split; reflexivity.
Qed.

End Sequences.

(** ** The bootstrap and the rows of a table *)

Section InstallAndTables.

Context {R : Runtime}.

(** X14.  A bootstrap that fails stops every install request, the valid names
    too: when the bootstrap command exits with a failure the call answers
    with the error envelope that carries its error output, when it cannot be
    started the call raises; in both cases the name is not even checked and
    nothing else is run. *)
Theorem bootstrap_failure_stops_install (self : PythonREPLServer)
    (args : list (string * json)) (p : process) (r : run_result)
    (p1 : process) :
  truthy (args_get "package" args) = true ->
  subprocess_run bootstrap_cmd p = (r, p1) ->
  match r with
  | CalledProcessError _ _ err =>
      handle_call_tool self "install_package" (Some args) p
      = (Return [text_content (dumps1 "error" ("Failed to install pip: " ++ err))],
         self, p1)
  | OtherError e =>
      handle_call_tool self "install_package" (Some args) p = (Raise e, self, p1)
  | CompletedProcess _ _ _ => True
  end.
Proof.
  intros Ht Hboot. rewrite (install_dispatch _ _ _ Ht).
  unfold install_package. rewrite Ht, Hboot. simpl negb. cbv iota.
  destruct r as [rc out err | rc out err | e]; [exact I | reflexivity | reflexivity].
Qed.

Lemma fold_dict_set_fresh {A : Type} (pairs : list (string * A)) :
  forall acc,
    NoDup (map fst acc ++ map fst pairs) ->
    fold_left (fun d kv => dict_set (fst kv) (snd kv) d) pairs acc
    = (acc ++ pairs)%list.
Proof.
  induction pairs as [|[k v] pairs IH]; intros acc Hnodup; simpl.
  - now rewrite app_nil_r.
  - assert (Hfresh : dict_get k acc = None).
    { apply dict_get_none_iff. intros Hin.
      apply NoDup_remove_2 in Hnodup. apply Hnodup.
      apply in_or_app. now left. }
    rewrite (dict_set_fresh k v acc Hfresh).
    rewrite IH.
    + now rewrite <- app_assoc.
    + rewrite map_app. simpl. rewrite <- app_assoc. exact Hnodup.
Qed.

Lemma combine_keys_nodup {A : Type} (columns : list string) :
  NoDup columns ->
  forall row : list A, NoDup (map fst (combine columns row)).
Proof.
  induction 1 as [|c columns Hc _ IH]; intros row; simpl; [constructor|].
  destruct row as [|x row]; simpl; [constructor|].
  constructor; [|apply IH].
  intros Hin. apply Hc.
  apply in_map_iff in Hin as [[c' x'] [Heq Hin]]. simpl in Heq. subst c'.
  now apply (in_combine_l _ _ _ _ Hin).
Qed.

(** X19.  For a table whose column names are distinct, the data of the envelope
    is, row after row, the mapping that pairs the columns in table order
    with the cells of the row. *)
Theorem row_mappings_follow_columns (columns : list string)
    (rows : list (list pyval)) :
  NoDup columns ->
  to_dict_records columns rows
  = VList (map (fun row => str_dict (combine columns row)) rows).
Proof.
  intros Hnodup. unfold to_dict_records. f_equal.
  apply map_ext. intros row. unfold dict_of_pairs.
  rewrite fold_dict_set_fresh; [reflexivity|].
  simpl. now apply combine_keys_nodup.
Qed.

End InstallAndTables.

(** ** The further properties at concrete requests *)

Section MoreWitnesses.

#[local] Existing Instance MiniPy.runtime.

(** An advertised name goes to its branch, another name is unknown. *)
Lemma advertised_tools_witness :
  handle_call_tool MiniPy.fresh_server "list_variables"
                   (Some [("x", JNull)]) MiniPy.fresh_process
  = list_variables MiniPy.fresh_server MiniPy.fresh_process
  /\ handle_call_tool MiniPy.fresh_server "run_shell"
                      (Some [("x", JNull)]) MiniPy.fresh_process
     = (Raise (ValueError "Unknown tool: run_shell"), MiniPy.fresh_server,
        MiniPy.fresh_process).
Proof.
  split.
  - refine (proj1 (advertised_tools_are_served MiniPy.fresh_server
                     "list_variables" ("x", JNull) [] MiniPy.fresh_process) _).
    simpl. auto.
  - refine (proj2 (advertised_tools_are_served MiniPy.fresh_server
                     "run_shell" ("x", JNull) [] MiniPy.fresh_process) _).
    simpl. intros [H | [H | [H | []]]]; discriminate H.
Defined.

(** An execute request that only carries the reset flag lacks the required
    code. *)
Lemma required_arguments_witness :
  exists msg,
    handle_call_tool MiniPy.fresh_server "execute_python"
                     (Some [("reset", JBool true)]) MiniPy.fresh_process
    = (Raise (ValueError msg), MiniPy.fresh_server, MiniPy.fresh_process).
Proof.
  refine (required_arguments_enforced MiniPy.fresh_server
            (nth 0 handle_list_tools (mk_tool EmptyString EmptyString JNull))
            "code" [("reset", JBool true)] MiniPy.fresh_process _ _ _ _).
  - simpl. auto.
  - simpl. auto.
  - discriminate.
  - reflexivity.
Defined.

(** The failing request [1 // 0] is answered with one text block. *)
Lemma execute_failures_witness :
  exists t,
    execution_error (ZeroDivisionError "integer division or modulo by zero")
    = [text_content t].
Proof.
  exact (execute_failures_are_data MiniPy.fresh_server
           [("code", JString "1 // 0")] MiniPy.fresh_process eq_refl).
Defined.

(** The confirmation of a reset is one text block. *)
Lemma returned_content_witness :
  exists t, [text_content reset_message] = [mk_content "text" t].
Proof.
  exact (returned_content_is_one_text_block
           (MiniPy.server_with [("x", VInt 5)]) "execute_python"
           (MiniPy.reset_request "pass") MiniPy.fresh_process
           [text_content reset_message] MiniPy.fresh_server
           MiniPy.fresh_process eq_refl).
Defined.


(** The name [requests] is its own module; a name with extras is refused. *)
Lemma accepted_name_witness :
  base_module "requests" = "requests"
  /\ re_match_package "pandas[excel]" = false.
Proof.
  split.
  - exact (proj2 (proj1 (accepted_name_has_no_extras "requests") eq_refl)).
  - exact (proj2 (accepted_name_has_no_extras "requests") "pandas" "excel]").
Defined.

(** The accepted name [ok-pkg.1] is no identifier: once both commands have
    run, the import statement does not compile and the call raises.  Where
    the import of [pandas] runs a command that fails, the outer [except]
    turns that failure into an envelope. *)
Lemma install_outcome_witness :
  handle_call_tool MiniPy.fresh_server "install_package"
                   (MiniPy.install_request "ok-pkg.1") MiniPy.fresh_process
  = (Raise (SyntaxError "invalid syntax"), MiniPy.fresh_server,
     mk_process Stdout Stderr EmptyString EmptyString []
                [bootstrap_cmd; install_cmd "ok-pkg.1"])
  /\ handle_call_tool (R := MiniPy.shelling_runtime) MiniPy.fresh_server
                      "install_package" (MiniPy.install_request "pandas")
                      MiniPy.fresh_process
     = (Return
          [mk_content "text"
             ("{" ++ str1 DQUOTE ++ "error" ++ str1 DQUOTE ++ ": "
              ++ str1 DQUOTE ++ "Failed to install package:\nsetup failed"
              ++ str1 DQUOTE ++ "}")],
        MiniPy.fresh_server,
        mk_process Stdout Stderr EmptyString EmptyString []
                   [bootstrap_cmd; install_cmd "pandas"]).
Proof.
  split.
  - refine (install_outcome_follows_import MiniPy.fresh_server
              [("package", JString "ok-pkg.1")] "ok-pkg.1" MiniPy.fresh_process
              (mk_process Stdout Stderr EmptyString EmptyString [] [bootstrap_cmd])
              (mk_process Stdout Stderr EmptyString EmptyString []
                          [bootstrap_cmd; install_cmd "ok-pkg.1"])
              EmptyString EmptyString EmptyString EmptyString
              (Raised (SyntaxError "invalid syntax"))
              (global_namespace MiniPy.fresh_server)
              (mk_process Stdout Stderr EmptyString EmptyString []
                          [bootstrap_cmd; install_cmd "ok-pkg.1"])
              _ _ _ _ _);
      reflexivity.
  - refine (install_outcome_follows_import (R := MiniPy.shelling_runtime)
              MiniPy.fresh_server
              [("package", JString "pandas")] "pandas" MiniPy.fresh_process
              (mk_process Stdout Stderr EmptyString EmptyString [] [bootstrap_cmd])
              (mk_process Stdout Stderr EmptyString EmptyString []
                          [bootstrap_cmd; install_cmd "pandas"])
              EmptyString EmptyString EmptyString EmptyString
              (Raised MiniPy.import_error)
              (global_namespace MiniPy.fresh_server)
              (mk_process Stdout Stderr EmptyString EmptyString []
                          [bootstrap_cmd; install_cmd "pandas"])
              _ _ _ _ _);
      reflexivity.
Defined.

(** The code argument 5 is answered with the error envelope of the type
    error. *)
Lemma non_string_code_witness :
  fst (fst (handle_call_tool MiniPy.fresh_server "execute_python"
              (Some [("code", JNum 5)]) MiniPy.fresh_process))
  = Return (execution_error
              (TypeError "exec() arg 1 must be a string, bytes or code object"))
  /\ snd (handle_call_tool MiniPy.fresh_server "execute_python"
            (Some [("code", JNum 5)]) MiniPy.fresh_process)
     = MiniPy.after_call EmptyString EmptyString.
Proof.
  refine (non_string_code_is_an_error_envelope MiniPy.fresh_server
            [("code", JNum 5)] MiniPy.fresh_process _ _ _);
    try reflexivity.
  intros src H. discriminate H.
Defined.

(** After a reset of a session that held [x], the listing shows [pd] only. *)
Lemma listing_after_reset_witness :
  exists t,
    json_dumps
      (str_dict [("variables", str_dict [("pd", VStr MiniPy.pandas_text)])])
    = inr t
    /\ handle_call_tool MiniPy.fresh_server "list_variables"
                        (Some [("x", JNull)]) MiniPy.fresh_process
       = (Return [text_content t], MiniPy.fresh_server, MiniPy.fresh_process).
Proof.
  refine (listing_after_reset (MiniPy.server_with [("x", VInt 5)])
            [("code", JString "pass"); ("reset", JBool true)]
            [("x", JNull)] MiniPy.fresh_process MiniPy.pandas_text _ _ _ _);
    try reflexivity.
  discriminate.
Defined.

(** Without network the valid name [requests] gets the bootstrap error. *)
Lemma bootstrap_failure_witness :
  handle_call_tool (R := MiniPy.offline_runtime) MiniPy.fresh_server
                   "install_package" (MiniPy.install_request "requests")
                   MiniPy.fresh_process
  = (Return [text_content
               (dumps1 "error"
                  ("Failed to install pip: " ++ "error: network unreachable"))],
     MiniPy.fresh_server,
     mk_process Stdout Stderr EmptyString EmptyString [] [bootstrap_cmd]).
Proof.
  refine (bootstrap_failure_stops_install (R := MiniPy.offline_runtime)
            MiniPy.fresh_server [("package", JString "requests")]
            MiniPy.fresh_process
            (CalledProcessError 1 EmptyString "error: network unreachable")
            (mk_process Stdout Stderr EmptyString EmptyString []
                        [bootstrap_cmd]) _ _);
    reflexivity.
Defined.

(** The rows of the two by two table. *)
Lemma row_mappings_witness :
  to_dict_records ["a"; "b"] [[VInt 1; VInt 2]; [VInt 3; VInt 4]]
  = VList [str_dict [("a", VInt 1); ("b", VInt 2)];
           str_dict [("a", VInt 3); ("b", VInt 4)]].
Proof.
  refine (row_mappings_follow_columns ["a"; "b"]
            [[VInt 1; VInt 2]; [VInt 3; VInt 4]] _).
  repeat constructor; simpl; intuition discriminate.
Defined.

End MoreWitnesses.
